(** * Mailing service: lifecycle, validation and delivery loop

    A shallow embedding of the Django application in [mailings/] and
    [users/]: the [Mailing] model ([mailings/models.py]), its form
    ([mailings/forms.py]), the manual send and toggle views
    ([mailings/views.py]) and the [send_mailings] management command.

    Conventions.
    - A [DateTimeField] value is an integer number of clock units ([Z]).
    - Every call of [timezone.now()] consumes the next reading of a clock
      oracle, so two calls in one request may see different instants.
    - [send_mail] is an oracle too: it either returns or raises, and the
      text of the exception is what [str(e)] yields.
    - The database is a record of tables; a view is a function from the
      world before the request to a response and the world after it. *)

From stdpp Require Import gmap strings list pretty.
From Stdlib Require Import ZArith Lia.

Local Open Scope string_scope.

(** ** users/models.py *)

Module Users.

Inductive Role := ROLE_USER | ROLE_MANAGER | ROLE_ADMIN.

Record User := {
  user_id : Z;
  role : Role;
  is_superuser : bool
}.

Definition is_user (self : User) : bool :=
  match role self with ROLE_USER => true | _ => false end.

Definition is_manager (self : User) : bool :=
  match role self with ROLE_MANAGER => true | _ => false end.

Definition is_admin_role (self : User) : bool :=
  match role self with ROLE_ADMIN => true | _ => false end.

Definition can_manage_users (self : User) : bool :=
  is_manager self || is_admin_role self || is_superuser self.

Definition can_view_all_mailings (self : User) : bool :=
  is_manager self || is_admin_role self || is_superuser self.

End Users.

(** ** mailings/models.py *)

Module Models.

Record Client := {
  client_pk : Z;
  email : string;
  full_name : string;
  comment : option string;
  client_owner : option Z
}.

Record Message := {
  message_pk : Z;
  subject : string;
  body : string;
  message_created_at : Z;
  message_owner : option Z
}.

Inductive MailingStatus := STATUS_CREATED | STATUS_STARTED | STATUS_COMPLETED.

(** The stored text of each status constant. *)
Definition status_value (s : MailingStatus) : string :=
  match s with
  | STATUS_CREATED => "Создана"
  | STATUS_STARTED => "Запущена"
  | STATUS_COMPLETED => "Завершена"
  end.

Definition status_eqb (a b : MailingStatus) : bool :=
  match a, b with
  | STATUS_CREATED, STATUS_CREATED
  | STATUS_STARTED, STATUS_STARTED
  | STATUS_COMPLETED, STATUS_COMPLETED => true
  | _, _ => false
  end.

(** The columns of a [Mailing] row (the key is kept by the table).

    The class body of [Mailing] binds the name [is_active] twice: first
    to a [BooleanField] (line 105) and later to the method
    [def is_active(self)] (line 154).  A class body is executed top to
    bottom in one namespace, so when the model metaclass receives the
    namespace the name [is_active] holds the function and the field
    object is gone: Django registers no [is_active] column.  The row
    therefore has exactly the columns below; the many-to-many relation
    [recipients] and the foreign key [message] are shown resolved. *)
Record MailingRow := {
  start_time : Z;
  end_time : Z;
  status : MailingStatus;
  message : Message;
  recipients : list Client;
  created_at : Z;
  owner : option Z
}.

Definition set_status (s : MailingStatus) (r : MailingRow) : MailingRow :=
  {| start_time := start_time r; end_time := end_time r;
     status := s; message := message r; recipients := recipients r;
     created_at := created_at r; owner := owner r |}.

(** A Python instance of [Mailing] loaded from the database: the field
    values, and the entry [is_active] of the instance [__dict__] when a
    caller has assigned one ([mailing.is_active = ...]).  A function is
    a non-data descriptor, so such an assignment is stored on the
    instance and afterwards hides the method for that instance only. *)
Record Mailing := {
  pk : Z;
  row :> MailingRow;
  dict_is_active : option bool
}.

(** What the ORM builds for the row stored under key [k]
    ([Model.from_db]): the key and the field values, nothing else. *)
Definition from_db (k : Z) (r : MailingRow) : Mailing :=
  {| pk := k; row := r; dict_is_active := None |}.

(** [self.status = s] *)
Definition assign_status (s : MailingStatus) (self : Mailing) : Mailing :=
  {| pk := pk self; row := set_status s self;
     dict_is_active := dict_is_active self |}.

(** [self.is_active = b] *)
Definition assign_is_active (b : bool) (self : Mailing) : Mailing :=
  {| pk := pk self; row := self; dict_is_active := Some b |}.

(** The value of the expression [mailing.is_active] (no call). *)
Inductive AttrValue := PyBool (b : bool) | PyBoundMethod.

Definition getattr_is_active (self : Mailing) : AttrValue :=
  match dict_is_active self with
  | Some b => PyBool b
  | None => PyBoundMethod
  end.

(** Python truth value: a bound method object is always true. *)
Definition truthy (v : AttrValue) : bool :=
  match v with
  | PyBool b => b
  | PyBoundMethod => true
  end.

Inductive AttemptStatus := STATUS_SUCCESS | STATUS_FAILED.

Definition attempt_status_value (s : AttemptStatus) : string :=
  match s with
  | STATUS_SUCCESS => "Успешно"
  | STATUS_FAILED => "Не успешно"
  end.

(** A [MailingAttempt] row; the surrogate key the database assigns is
    left out, a row is identified by its position in the ledger. *)
Record MailingAttempt := {
  mailing : Z;
  attempt_time : Z;
  attempt_status : AttemptStatus;
  server_response : option string;
  recipient_email : option string
}.

(** *** Mailing.clean *)

(** The attributes [clean] reads off [self].  While a form is being
    validated [pk] is [None] for an object that is not saved yet, and a
    time attribute is [None] when it has not been set. *)
Record Candidate := {
  c_pk : option Z;
  c_start_time : option Z;
  c_end_time : option Z
}.

(** [not self.pk]: true for [None] and for the integer 0. *)
Definition not_pk (self : Candidate) : bool :=
  match c_pk self with
  | None => true
  | Some k => (k =? 0)%Z
  end.

(** A [ValidationError] built from a dict: field name and message. *)
Definition ValidationError := list (string * string).

Inductive Raises (E A : Type) := Returns (a : A) | Raise (e : E).
Arguments Returns {E A} a.
Arguments Raise {E A} e.

Definition clean (self : Candidate) (now : Z) : Raises ValidationError unit :=
  match c_start_time self, c_end_time self with
  | Some st, Some en =>
      if (st >=? en)%Z then
        Raise [("end_time", "Дата окончания должна быть позже даты начала.")]
      else if not_pk self && (st <? now)%Z then
        Raise [("start_time", "Дата начала не может быть в прошлом.")]
      else Returns tt
  | _, _ => Returns tt
  end.

(** *** Mailing.update_status *)

(** The [if]/[elif]/[else] that computes the local [new_status]. *)
Definition new_status (self : MailingRow) (now : Z) : MailingStatus :=
  if (now <? start_time self)%Z then STATUS_CREATED
  else if (start_time self <=? now)%Z && (now <=? end_time self)%Z
       then STATUS_STARTED
  else STATUS_COMPLETED.

Inductive DbError := DatabaseError.

(** [self.save(update_fields=['status'])]: one UPDATE of the [status]
    column of the row with this key; Django raises [DatabaseError] when
    the UPDATE matches no row. *)
Definition save_update_fields_status (self : Mailing)
    (table : gmap Z MailingRow) : Raises DbError (gmap Z MailingRow) :=
  match table !! pk self with
  | Some r => Returns (<[pk self := set_status (status self) r]> table)
  | None => Raise DatabaseError
  end.

(** [now] is the reading [timezone.now()] returns on the first line. *)
Definition update_status (now : Z) (self : Mailing)
    (table : gmap Z MailingRow)
    : Raises DbError (Mailing * gmap Z MailingRow) :=
  let new_status := new_status self now in
  if negb (status_eqb (status self) new_status) then
    let self := assign_status new_status self in
    match save_update_fields_status self table with
    | Returns table => Returns (self, table)
    | Raise e => Raise e
    end
  else Returns (self, table).

(** The method [is_active(self)] that the name is finally bound to. *)
Definition is_active (now : Z) (self : Mailing) (table : gmap Z MailingRow)
    : Raises DbError (bool * (Mailing * gmap Z MailingRow)) :=
  match update_status now self table with
  | Returns (self, table) =>
      Returns (status_eqb (status self) STATUS_STARTED, (self, table))
  | Raise e => Raise e
  end.

Definition can_send (self : Mailing) (now : Z) : bool :=
  (start_time self <=? now)%Z && (now <=? end_time self)%Z.

(** [Model.save()] without [update_fields]: every column is written from
    the instance, inserting the row when the key is new.  The recipient
    links live in their own table and are not written. *)
Definition save (self : Mailing) (table : gmap Z MailingRow)
    : gmap Z MailingRow :=
  let links := match table !! pk self with
               | Some r => recipients r
               | None => []
               end in
  <[pk self :=
      {| start_time := start_time self;
         end_time := end_time self; status := status self;
         message := message self; recipients := links;
         created_at := created_at self; owner := owner self |}]> table.

End Models.

(** ** mailings/forms.py *)

Module Forms.
Import Models.

(** [MailingForm.clean_start_time]: [start_time] is what
    [cleaned_data.get('start_time')] returns.  The exception is built
    from a plain message, the form machinery files it under the field. *)
Definition clean_start_time (instance : Candidate) (start_time : option Z)
    (now : Z) : Raises string (option Z) :=
  match start_time with
  | Some st =>
      if not_pk instance && (st <? now)%Z
      then Raise "Дата начала не может быть в прошлом."
      else Returns start_time
  | None => Returns start_time
  end.

(** [MailingForm.clean]: the two values are what [cleaned_data.get]
    returns for each key ([None] when the key is missing). *)
Definition clean (start_time end_time : option Z)
    : Raises ValidationError unit :=
  match start_time, end_time with
  | Some st, Some en =>
      if (st >=? en)%Z then
        Raise [("end_time", "Дата окончания должна быть позже даты начала.")]
      else Returns tt
  | _, _ => Returns tt
  end.

(** The order in which Django's [ModelForm.full_clean] runs these hooks
    for the two time fields (framework behaviour, not repository code):
    + each field is converted, then its [clean_<name>] hook runs; a
      field whose step raised is removed from [cleaned_data];
    + the form-wide [clean] runs on what is left; a field named in its
      error dict is removed from [cleaned_data] as well;
    + the instance receives the values still in [cleaned_data] and
      [Mailing.clean] runs on it.
    A posted value is [inl msg] when the field's own conversion failed
    with [msg] and [inr t] when it parsed to the instant [t]. *)
Definition full_clean (instance : Candidate) (start_in end_in : string + Z)
    (now_form now_model : Z) : list (string * string) :=
  let '(cleaned_start, errors1) :=
    match start_in with
    | inl msg => (None, [("start_time", msg)])
    | inr t =>
        match clean_start_time instance (Some t) now_form with
        | Returns v => (v, [])
        | Raise msg => (None, [("start_time", msg)])
        end
    end in
  let '(cleaned_end, errors2) :=
    match end_in with
    | inl msg => (None, [("end_time", msg)])
    | inr t => (Some t, [])
    end in
  let '(cleaned_end, errors3) :=
    match clean cleaned_start cleaned_end with
    | Returns _ => (cleaned_end, [])
    | Raise e => (None, e)
    end in
  let constructed :=
    {| c_pk := c_pk instance;
       c_start_time := match cleaned_start with
                       | Some t => Some t
                       | None => c_start_time instance
                       end;
       c_end_time := match cleaned_end with
                     | Some t => Some t
                     | None => c_end_time instance
                     end |} in
  let errors4 :=
    match Models.clean constructed now_model with
    | Returns _ => []
    | Raise e => e
    end in
  errors1 ++ errors2 ++ errors3 ++ errors4.

End Forms.

(** ** The world a request runs in *)

Module Env.
Import Models.

(** [send_mail(..., fail_silently=False)] returns or raises. *)
Inductive SendOutcome := Sent | Throws (str_e : string).

Inductive Event :=
| EvSendMail (subject message from_email : string)
             (recipient_list : list string)
| EvCreateAttempt (a : MailingAttempt)
| EvUpdateStatus (mailing_pk : Z).

Record World := {
  mailings : gmap Z MailingRow;
  attempts : list MailingAttempt;   (* oldest first *)
  clock_reads : nat;                (* calls of timezone.now() so far *)
  mail_calls : nat;                 (* calls of send_mail so far *)
  trace : list Event                (* oldest first *)
}.

Definition with_mailings (t : gmap Z MailingRow) (w : World) : World :=
  {| mailings := t; attempts := attempts w; clock_reads := clock_reads w;
     mail_calls := mail_calls w; trace := trace w |}.

Definition log (e : Event) (w : World) : World :=
  {| mailings := mailings w; attempts := attempts w;
     clock_reads := clock_reads w; mail_calls := mail_calls w;
     trace := trace w ++ [e] |}.

Section Oracles.
Variable clock : nat -> Z.
Variable send_mail_outcome :
  nat -> string -> string -> string -> list string -> SendOutcome.

(** [timezone.now()] *)
Definition timezone_now (w : World) : Z * World :=
  (clock (clock_reads w),
   {| mailings := mailings w; attempts := attempts w;
      clock_reads := S (clock_reads w); mail_calls := mail_calls w;
      trace := trace w |}).

(** [send_mail(subject=..., message=..., from_email=...,
    recipient_list=..., fail_silently=False)] *)
Definition send_mail (subject message from_email : string)
    (recipient_list : list string) (w : World) : SendOutcome * World :=
  (send_mail_outcome (mail_calls w) subject message from_email
                     recipient_list,
   log (EvSendMail subject message from_email recipient_list)
     {| mailings := mailings w; attempts := attempts w;
        clock_reads := clock_reads w; mail_calls := S (mail_calls w);
        trace := trace w |}).

(** [MailingAttempt.objects.create(mailing=..., status=...,
    server_response=..., recipient_email=...)]; [attempt_time] is
    [auto_now_add].  The insert itself is taken to succeed. *)
Definition create_attempt (mailing : Mailing) (st : AttemptStatus)
    (server_response : string) (recipient_email : string)
    (w : World) : World :=
  let '(now, w) := timezone_now w in
  let a := {| Models.mailing := pk mailing; attempt_time := now;
              attempt_status := st;
              server_response := Some server_response;
              recipient_email := Some recipient_email |} in
  log (EvCreateAttempt a)
    {| mailings := mailings w; attempts := attempts w ++ [a];
       clock_reads := clock_reads w; mail_calls := mail_calls w;
       trace := trace w |}.

(** [mailing.update_status()] run against the world. *)
Definition call_update_status (self : Mailing) (w : World)
    : Raises DbError Mailing * World :=
  let '(now, w) := timezone_now w in
  let w := log (EvUpdateStatus (pk self)) w in
  match update_status now self (mailings w) with
  | Returns (self, table) => (Returns self, with_mailings table w)
  | Raise e => (Raise e, w)
  end.

(** [mailing.can_send()] run against the world. *)
Definition call_can_send (self : Mailing) (w : World) : bool * World :=
  let '(now, w) := timezone_now w in
  (can_send self now, w).

End Oracles.
End Env.

(** ** mailings/views.py *)

Module Views.
Import Users Models Env.

(** Levels of the [django.contrib.messages] framework. *)
Inductive Level := error | warning | success.

Inductive Route :=
| login
| mailing_list
| mailing_detail (pk : Z)
| home.

Inductive HttpResponse :=
| redirect (to : Route)
| Http404
| ServerError (e : DbError).

(** [request.user]; [None] stands for the anonymous user. *)
Record Request := { user : option User }.

(** What a request produces: the flash messages queued for the user, in
    order, and the HTTP response. *)
Record Response := {
  flashes : list (Level * string);
  http : HttpResponse
}.

Definition respond (fl : list (Level * string)) (h : HttpResponse)
    : Response :=
  {| flashes := fl; http := h |}.

(** [mailing.owner != request.user] *)
Definition owner_differs (mailing : Mailing) (u : User) : bool :=
  match owner mailing with
  | Some o => negb (o =? user_id u)%Z
  | None => true
  end.

Section Oracles.
Variable clock : nat -> Z.
Variable send_mail_outcome :
  nat -> string -> string -> string -> list string -> SendOutcome.
Variable DEFAULT_FROM_EMAIL : string.

(** The loop [for client in recipients:] of [send_mailing] with its two
    counters. *)
Fixpoint send_loop (mailing : Mailing) (recipients : list Client)
    (success_count failed_count : nat) (w : World)
    : nat * nat * World :=
  match recipients with
  | [] => (success_count, failed_count, w)
  | client :: rest =>
      let '(outcome, w) :=
        send_mail send_mail_outcome
          (subject (message mailing)) (body (message mailing))
          DEFAULT_FROM_EMAIL [email client] w in
      match outcome with
      | Sent =>
          let w := create_attempt clock mailing STATUS_SUCCESS
                     "Письмо успешно отправлено" (email client) w in
          send_loop mailing rest (S success_count) failed_count w
      | Throws str_e =>
          let w := create_attempt clock mailing STATUS_FAILED
                     str_e (email client) w in
          send_loop mailing rest success_count (S failed_count) w
      end
  end.

(** [send_mailing] from the access check on, for the instance that
    [get_object_or_404] returned. *)
Definition send_mailing_body (u : User) (mailing : Mailing) (w : World)
    : Response * World :=
  if owner_differs mailing u && negb (can_view_all_mailings u) then
    (respond [(error, "У вас нет прав для отправки этой рассылки.")]
       (redirect mailing_list), w)
  else if negb (truthy (getattr_is_active mailing)) then
    (respond
       [(error,
         "Рассылка деактивирована менеджером и не может быть отправлена.")]
       (redirect (mailing_detail (pk mailing))), w)
  else
    let '(sendable, w) := call_can_send clock mailing w in
    if negb sendable then
      (respond
         [(error,
           "Рассылка не может быть отправлена. "
           +:+ "Текущее время должно быть между датой начала и окончания.")]
         (redirect (mailing_detail (pk mailing))), w)
    else
      let recipients := recipients mailing in
      match recipients with
      | [] =>
          (respond [(warning, "У рассылки нет получателей!")]
             (redirect (mailing_detail (pk mailing))), w)
      | _ :: _ =>
          let '(success_count, failed_count, w) :=
            send_loop mailing recipients 0 0 w in
          match call_update_status clock mailing w with
          | (Raise e, w) => (respond [] (ServerError e), w)
          | (Returns _, w) =>
              let m1 :=
                if (0 <? success_count)%nat then
                  [(success,
                    "Успешно отправлено писем: " +:+ pretty success_count)]
                else [] in
              let m2 :=
                if (0 <? failed_count)%nat then
                  [(warning,
                    "Не удалось отправить писем: " +:+ pretty failed_count)]
                else [] in
              (respond (m1 ++ m2)
                 (redirect (mailing_detail (pk mailing))), w)
          end
      end.

(** [@login_required def send_mailing(request, pk)] *)
Definition send_mailing (request : Request) (pk : Z) (w : World)
    : Response * World :=
  match user request with
  | None => (respond [] (redirect login), w)
  | Some u =>
      match mailings w !! pk with
      | None => (respond [] Http404, w)
      | Some r => send_mailing_body u (from_db pk r) w
      end
  end.

(** [@login_required def toggle_mailing_active(request, pk)] *)
Definition toggle_mailing_active (request : Request) (pk : Z) (w : World)
    : Response * World :=
  match user request with
  | None => (respond [] (redirect login), w)
  | Some u =>
      if negb (can_manage_users u) then
        (respond
           [(error, "У вас нет прав для выполнения этого действия.")]
           (redirect home), w)
      else
        match mailings w !! pk with
        | None => (respond [] Http404, w)
        | Some r =>
            let mailing := from_db pk r in
            let mailing :=
              assign_is_active
                (negb (truthy (getattr_is_active mailing))) mailing in
            let w := with_mailings (save mailing (mailings w)) w in
            let action :=
              if truthy (getattr_is_active mailing)
              then "активирована" else "деактивирована" in
            (respond
               [(success, "Рассылка успешно " +:+ action +:+ ".")]
               (redirect (mailing_detail pk)), w)
        end
  end.

End Oracles.
End Views.

(** ** mailings/management/commands/send_mailings.py *)

Module SendMailings.
Import Models Env.

(** [self.style.X(...)]; [plain] is an unstyled write. *)
Inductive Style := plain | ERROR | WARNING | SUCCESS.

Fixpoint str_times (s : string) (n : nat) : string :=
  match n with
  | O => ""
  | S n => s +:+ str_times s n
  end.

Section Oracles.
Variable clock : nat -> Z.
Variable send_mail_outcome :
  nat -> string -> string -> string -> list string -> SendOutcome.
Variable DEFAULT_FROM_EMAIL : string.

(** The loop [for client in recipients:] of [handle]; [stdout] collects
    the lines written so far. *)
Fixpoint send_loop (mailing : Mailing) (recipients : list Client)
    (success_count failed_count : nat)
    (stdout : list (Style * string)) (w : World)
    : nat * nat * list (Style * string) * World :=
  match recipients with
  | [] => (success_count, failed_count, stdout, w)
  | client :: rest =>
      let '(outcome, w) :=
        send_mail send_mail_outcome
          (subject (message mailing)) (body (message mailing))
          DEFAULT_FROM_EMAIL [email client] w in
      match outcome with
      | Sent =>
          let w := create_attempt clock mailing STATUS_SUCCESS
                     "Письмо успешно отправлено" (email client) w in
          send_loop mailing rest (S success_count) failed_count
            (stdout ++ [(SUCCESS, "✓ Отправлено: " +:+ email client)]) w
      | Throws str_e =>
          let w := create_attempt clock mailing STATUS_FAILED
                     str_e (email client) w in
          send_loop mailing rest success_count (S failed_count)
            (stdout ++
             [(ERROR, "✗ Ошибка " +:+ email client +:+ ": " +:+ str_e)])
            w
      end
  end.

(** What a run of the command leaves behind: the lines written to
    [stdout] and the exception that ended the run, if any. *)
Definition Run : Type := list (Style * string) * option DbError.

(** [handle] after the lookup, for the instance [objects.get] gave. *)
Definition handle_body (mailing_id : Z) (mailing : Mailing) (w : World)
    : Run * World :=
  let '(sendable, w) := call_can_send clock mailing w in
  if negb sendable then
    (([(ERROR,
        "Рассылка не может быть отправлена. "
        +:+ "Текущее время должно быть между датой начала и окончания.")],
      None), w)
  else
    let recipients := recipients mailing in
    match recipients with
    | [] => (([(WARNING, "У рассылки нет получателей!")], None), w)
    | _ :: _ =>
        let stdout :=
          [(plain, "Начинаем отправку рассылки #" +:+ pretty mailing_id);
           (plain, "Сообщение: " +:+ subject (message mailing));
           (plain, "Получателей: " +:+ pretty (length recipients));
           (plain, str_times "-" 50)] in
        let '(success_count, failed_count, stdout, w) :=
          send_loop mailing recipients 0 0 stdout w in
        match call_update_status clock mailing w with
        | (Raise e, w) => ((stdout, Some e), w)
        | (Returns mailing, w) =>
            let stdout :=
              (stdout ++
               [(plain, str_times "-" 50);
                (SUCCESS,
                 "Успешно отправлено: " +:+ pretty success_count)])%list in
            let stdout :=
              if (0 <? failed_count)%nat then
                (stdout ++
                 [(WARNING,
                   "Не удалось отправить: " +:+ pretty failed_count)])%list
              else stdout in
            (((stdout ++
               [(SUCCESS,
                 "Рассылка завершена! Новый статус: "
                 +:+ status_value (status mailing))])%list,
              None), w)
        end
    end.

(** [Command.handle] for [options['mailing_id'] = mailing_id]. *)
Definition handle (mailing_id : Z) (w : World) : Run * World :=
  match mailings w !! mailing_id with
  | None =>
      (([(ERROR,
          "Рассылка с ID " +:+ pretty mailing_id +:+ " не найдена")],
        None), w)
  | Some r => handle_body mailing_id (from_db mailing_id r) w
  end.

End Oracles.
End SendMailings.

(** ** Observations used in the statements *)

Module Observe.
Import Models Env.

(** Does the outcome of a validation carry an error for [field]? *)
Definition names (field : string) (errors : list (string * string)) : bool :=
  existsb (fun p => String.eqb (fst p) field) errors.

Definition reports (field : string) (r : Raises ValidationError unit)
    : bool :=
  match r with
  | Returns _ => false
  | Raise e => names field e
  end.

Definition thrown (o : SendOutcome) : bool :=
  match o with Throws _ => true | Sent => false end.

Definition is_failed (a : MailingAttempt) : bool :=
  match attempt_status a with STATUS_FAILED => true | _ => false end.

Definition is_success (a : MailingAttempt) : bool :=
  match attempt_status a with STATUS_SUCCESS => true | _ => false end.

Definition is_update (e : Event) : bool :=
  match e with EvUpdateStatus _ => true | _ => false end.

Definition count {A : Type} (p : A -> bool) (l : list A) : nat :=
  length (List.filter p l).

(** The recipient lists of the [send_mail] calls in a trace, in order. *)
Fixpoint sends (tr : list Event) : list (list string) :=
  match tr with
  | [] => []
  | EvSendMail _ _ _ to :: tr => to :: sends tr
  | _ :: tr => sends tr
  end.

Section Oracles.
Variable clock : nat -> Z.
Variable send_mail_outcome :
  nat -> string -> string -> string -> list string -> SendOutcome.
Variable DEFAULT_FROM_EMAIL : string.

(** What the transport answers when it is called for client [c] after
    [calls] earlier calls. *)
Definition answer (calls : nat) (m : Mailing) (c : Client) : SendOutcome :=
  send_mail_outcome calls (subject (message m)) (body (message m))
                    DEFAULT_FROM_EMAIL [email c].

(** The answers for a batch that starts after [calls] earlier calls. *)
Fixpoint batch_outcomes (calls : nat) (m : Mailing) (rs : list Client)
    : list SendOutcome :=
  match rs with
  | [] => []
  | c :: rs => answer calls m c :: batch_outcomes (S calls) m rs
  end.

(** The ledger row that matches one answer. *)
Definition attempt_for (m : Mailing) (t : Z) (c : Client)
    (o : SendOutcome) : MailingAttempt :=
  match o with
  | Sent =>
      {| mailing := pk m; attempt_time := t;
         attempt_status := STATUS_SUCCESS;
         server_response := Some "Письмо успешно отправлено";
         recipient_email := Some (email c) |}
  | Throws str_e =>
      {| mailing := pk m; attempt_time := t;
         attempt_status := STATUS_FAILED;
         server_response := Some str_e;
         recipient_email := Some (email c) |}
  end.

Fixpoint batch_attempts (reads calls : nat) (m : Mailing)
    (rs : list Client) : list MailingAttempt :=
  match rs with
  | [] => []
  | c :: rs =>
      attempt_for m (clock reads) c (answer calls m c)
      :: batch_attempts (S reads) (S calls) m rs
  end.

Fixpoint batch_trace (reads calls : nat) (m : Mailing)
    (rs : list Client) : list Event :=
  match rs with
  | [] => []
  | c :: rs =>
      EvSendMail (subject (message m)) (body (message m))
                 DEFAULT_FROM_EMAIL [email c]
      :: EvCreateAttempt
           (attempt_for m (clock reads) c (answer calls m c))
      :: batch_trace (S reads) (S calls) m rs
  end.

(** The line [handle] writes for each recipient of a batch. *)
Fixpoint batch_lines (calls : nat) (m : Mailing) (rs : list Client)
    : list (SendMailings.Style * string) :=
  match rs with
  | [] => []
  | c :: rs =>
      match answer calls m c with
      | Sent => (SendMailings.SUCCESS, "✓ Отправлено: " +:+ email c)
      | Throws str_e =>
          (SendMailings.ERROR,
           "✗ Ошибка " +:+ email c +:+ ": " +:+ str_e)
      end :: batch_lines (S calls) m rs
  end.

(** One answer and the ledger row written for it. *)
Definition recorded_as (o : SendOutcome) (a : MailingAttempt) : Prop :=
  match o with
  | Sent =>
      attempt_status a = STATUS_SUCCESS
      /\ server_response a = Some "Письмо успешно отправлено"
  | Throws str_e =>
      attempt_status a = STATUS_FAILED
      /\ server_response a = Some str_e
  end.

(** What one invocation leaves behind when it went from world [w] to
    world [w'] for mailing [m] with [N] recipients [rs] of which [K]
    failed: [N] new ledger rows, one per recipient and in the order of
    the recipients, each with that recipient's address and the status
    and text of its own answer; one [send_mail] call per recipient;
    and a single status update, which is the last event. *)
Definition delivered_batch (m : Mailing) (rs : list Client) (N K : nat)
    (w w' : World) : Prop :=
  exists (new : list MailingAttempt) (tr : list Event),
    attempts w' = (attempts w ++ new)%list
    /\ length new = N
    /\ count is_failed new = K
    /\ count is_success new = N - K
    /\ Forall2 (fun c a => mailing a = pk m
                           /\ recipient_email a = Some (email c)) rs new
    /\ Forall2 recorded_as (batch_outcomes (mail_calls w) m rs) new
    /\ trace w' = (trace w ++ tr ++ [EvUpdateStatus (pk m)])%list
    /\ sends tr = map (fun c => [email c]) rs
    /\ count is_update tr = 0.

End Oracles.
End Observe.

(** ** A concrete campaign

    One mailing (key 1) owned by user 7, window [0, 7200], two recipients;
    the clock stands at 3600; the transport accepts every address except
    b@x.com, for which it raises "mailbox full". *)

Module Scenario.
Import Users Models Env.

Definition offer : Message :=
  {| message_pk := 1; subject := "Offer"; body := "Hello";
     message_created_at := 0; message_owner := Some 7%Z |}.

Definition client_a : Client :=
  {| client_pk := 1; email := "a@x.com"; full_name := "A";
     comment := None; client_owner := Some 7%Z |}.

Definition client_b : Client :=
  {| client_pk := 2; email := "b@x.com"; full_name := "B";
     comment := None; client_owner := Some 7%Z |}.

Definition campaign : MailingRow :=
  {| start_time := 0; end_time := 7200; status := STATUS_CREATED;
     message := offer; recipients := [client_a; client_b];
     created_at := 0; owner := Some 7%Z |}.

Definition empty_campaign : MailingRow :=
  {| start_time := 0; end_time := 7200; status := STATUS_CREATED;
     message := offer; recipients := [];
     created_at := 0; owner := Some 7%Z |}.

Definition world : World :=
  {| mailings := {[ 1%Z := campaign; 2%Z := empty_campaign ]};
     attempts := []; clock_reads := 0; mail_calls := 0; trace := [] |}.

Definition clock (n : nat) : Z := 3600.

Definition transport (calls : nat) (subject message from_email : string)
    (recipient_list : list string) : SendOutcome :=
  if bool_decide (recipient_list = ["b@x.com"])
  then Throws "mailbox full" else Sent.

Definition from_address : string := "noreply@example.com".

Definition owner_user : User :=
  {| user_id := 7; role := ROLE_USER; is_superuser := false |}.

Definition manager : User :=
  {| user_id := 9; role := ROLE_MANAGER; is_superuser := false |}.

End Scenario.

(** ** mailings/views.py: the access mixins and the mailing list and detail
    views *)

Module Access.
Import Users Models Env Views.

(** [OwnerRequiredMixin.get_queryset], for a table whose rows have an
    owner column read by [owner_of]; the mixin serves the client, message
    and mailing lists alike and always asks [can_view_all_mailings]. *)
Definition get_queryset {A : Type} (owner_of : A -> option Z) (u : User)
    (table : gmap Z A) : gmap Z A :=
  if can_view_all_mailings u then table
  else filter (fun kr => owner_of kr.2 = Some (user_id u)) table.

(** Where [OwnerOrManagerRequiredMixin.dispatch] can send a caller. *)
Inductive Target (R : Type) :=
| success_url (r : R)
| home_page.
Arguments success_url {R} r.
Arguments home_page {R}.

Inductive Verdict (R : Type) :=
| handed_on
| turned_away (fl : Level * string) (to : Target R)
| attribute_error (fl : Level * string).
Arguments handed_on {R}.
Arguments turned_away {R} fl to.
Arguments attribute_error {R} fl.

(** [request.method in ['POST', 'PUT', 'PATCH', 'DELETE']] *)
Definition unsafe_method (method : string) : bool :=
  existsb (String.eqb method) ["POST"; "PUT"; "PATCH"; "DELETE"].

(** [obj.owner == user] *)
Definition owned_by (obj_owner : option Z) (u : User) : bool :=
  match obj_owner with
  | Some o => (o =? user_id u)%Z
  | None => false
  end.

(** [OwnerOrManagerRequiredMixin.dispatch] for a logged-in user, after
    [obj = self.get_object()] found an object with owner [obj_owner].
    [get_success_url] is [None] for the detail views, which have no such
    method, so that evaluating [self.get_success_url()] raises
    [AttributeError] after the message was queued; [handed_on] stands for
    [super().dispatch(request, ...)]. *)
Definition dispatch {R : Type} (get_success_url : option R) (u : User)
    (obj_owner : option Z) (method : string) : Verdict R :=
  if owned_by obj_owner u || can_view_all_mailings u then
    if is_manager u && negb (owned_by obj_owner u) then
      if unsafe_method method then
        match get_success_url with
        | Some r =>
            turned_away
              (error,
               "Менеджер может просматривать, но не редактировать чужие данные.")
              (success_url r)
        | None =>
            attribute_error
              (error,
               "Менеджер может просматривать, но не редактировать чужие данные.")
        end
      else handed_on
    else handed_on
  else
    turned_away (error, "У вас нет прав доступа к этому объекту.") home_page.

Section Oracles.
Variable clock : nat -> Z.

(** The order in which the database hands back the rows of a query
    ([Meta.ordering] and, among rows that compare equal, whatever the
    engine does). *)
Variable fetch : gmap Z MailingRow -> list (Z * MailingRow).

(** [for mailing in queryset: mailing.update_status()] over the instances
    the query produced; an exception ends the loop. *)
Fixpoint update_each (loaded : list Mailing) (w : World)
    : Raises DbError (list Mailing) * World :=
  match loaded with
  | [] => (Returns [], w)
  | mailing :: rest =>
      match call_update_status clock mailing w with
      | (Raise e, w) => (Raise e, w)
      | (Returns mailing, w) =>
          match update_each rest w with
          | (Returns done, w) => (Returns (mailing :: done), w)
          | (Raise e, w) => (Raise e, w)
          end
      end
  end.

(** [MailingListView.get_queryset] for a logged-in user: the rows the
    mixin lets through are loaded, each one is refreshed, and the same
    objects are handed to the page. *)
Definition MailingListView_get_queryset (u : User) (w : World)
    : Raises DbError (list Mailing) * World :=
  let queryset := get_queryset owner u (mailings w) in
  update_each ((fun kr => from_db kr.1 kr.2) <$> fetch queryset) w.

(** [MailingDetailView.get_object]: [None] stands for [Http404]. *)
Definition MailingDetailView_get_object (k : Z) (w : World)
    : option (Raises DbError Mailing) * World :=
  match mailings w !! k with
  | None => (None, w)
  | Some r =>
      let '(obj, w) := call_update_status clock (from_db k r) w in
      (Some obj, w)
  end.

Inductive DetailOutcome :=
| not_found
| crashed (e : DbError)
| decided (v : Verdict Route).

(** [OwnerOrManagerRequiredMixin.dispatch] as [MailingDetailView] runs it
    for a logged-in user, up to its verdict: the object is fetched with
    the view's own [get_object] first. *)
Definition MailingDetailView_dispatch (u : User) (k : Z) (method : string)
    (w : World) : DetailOutcome * World :=
  match MailingDetailView_get_object k w with
  | (None, w) => (not_found, w)
  | (Some (Raise e), w) => (crashed e, w)
  | (Some (Returns obj), w) => (decided (dispatch None u (owner obj) method), w)
  end.

End Oracles.
End Access.

(** ** users/views.py: blocking an account *)

Module Accounts.
Import Users.

(** The columns of a [User] row that [toggle_user_block] and [User.save]
    read or write. *)
Record Account := {
  username : string;
  account_role : Role;
  account_is_superuser : bool;
  is_blocked : bool;
  blocked_reason : option string;
  email_verification_token : option string
}.

(** The account stored under key [k], seen as the user of a request. *)
Definition as_user (k : Z) (a : Account) : User :=
  {| user_id := k; role := account_role a;
     is_superuser := account_is_superuser a |}.

Inductive Page :=
| to_login
| to_home
| to_user_list
| to_user_detail (pk : Z)
| user_block_page
| Http404.

Record Reply := {
  flashes : list (Views.Level * string);
  page : Page
}.

(** [not self.email_verification_token]: true for [None] and for the
    empty string. *)
Definition no_token (a : Account) : bool :=
  match email_verification_token a with
  | None => true
  | Some t => String.eqb t ""
  end.

Section Oracles.
(** What [secrets.token_urlsafe(32)] returns when it is called. *)
Variable token_urlsafe : string.

(** [User.save]: a missing token is generated, then the row is written. *)
Definition save (k : Z) (self : Account) (table : gmap Z Account)
    : gmap Z Account :=
  let self :=
    if no_token self then
      {| username := username self; account_role := account_role self;
         account_is_superuser := account_is_superuser self;
         is_blocked := is_blocked self;
         blocked_reason := blocked_reason self;
         email_verification_token := Some token_urlsafe |}
    else self in
  <[k := self]> table.

(** [@login_required def toggle_user_block(request, pk)].  [method] is
    [request.method]; [cleaned] is what [UserBlockForm] makes of the
    posted data: [None] when [form.is_valid()] is false, otherwise the
    cleaned values of [is_blocked] and [blocked_reason]. *)
Definition toggle_user_block (request_user : option User) (method : string)
    (cleaned : option (bool * option string)) (pk : Z)
    (table : gmap Z Account) : Reply * gmap Z Account :=
  match request_user with
  | None => ({| flashes := []; page := to_login |}, table)
  | Some requester =>
      if negb (can_manage_users requester) then
        ({| flashes :=
              [(Views.error, "У вас нет прав для блокировки пользователей.")];
            page := to_home |}, table)
      else
        match table !! pk with
        | None => ({| flashes := []; page := Http404 |}, table)
        | Some user =>
            if (pk =? user_id requester)%Z then
              ({| flashes :=
                    [(Views.error, "Вы не можете заблокировать себя.")];
                  page := to_user_list |}, table)
            else if account_is_superuser user then
              ({| flashes :=
                    [(Views.error, "Нельзя заблокировать суперпользователя.")];
                  page := to_user_list |}, table)
            else if String.eqb method "POST" then
              match cleaned with
              | Some (blocked, reason) =>
                  let user :=
                    {| username := username user;
                       account_role := account_role user;
                       account_is_superuser := account_is_superuser user;
                       is_blocked := blocked;
                       blocked_reason := reason;
                       email_verification_token :=
                         email_verification_token user |} in
                  let table := save pk user table in
                  let action :=
                    if is_blocked user then "заблокирован"
                    else "разблокирован" in
                  ({| flashes :=
                        [(Views.success,
                          "Пользователь " +:+ username user +:+ " успешно "
                          +:+ action +:+ ".")];
                      page := to_user_detail pk |}, table)
              | None => ({| flashes := []; page := user_block_page |}, table)
              end
            else ({| flashes := []; page := user_block_page |}, table)
        end
  end.

End Oracles.
End Accounts.

(** ** users/views.py: logging in *)

Module Login.
Import Users Accounts.

Inductive Outcome :=
| already_in                       (* redirect('mailings:home') *)
| logged_in (k : Z) (fl : list (Views.Level * string)) (next_url : string)
| login_page (fl : list (Views.Level * string)).

(** [user.blocked_reason or "Не указана"] *)
Definition reason_or_default (a : Account) : string :=
  match blocked_reason a with
  | None => "Не указана"
  | Some t => if String.eqb t "" then "Не указана" else t
  end.

(** [login_view].  [is_authenticated] is [request.user.is_authenticated],
    [form_is_valid] what [form.is_valid()] answers, [authenticate] the
    account that [authenticate(username=..., password=...)] returns with
    its key ([None] when the credentials match nobody) and [next_param]
    the query parameter [next]. *)
Definition login_view (is_authenticated : bool) (method : string)
    (form_is_valid : bool) (authenticate : option (Z * Account))
    (next_param : option string) : Outcome :=
  if is_authenticated then already_in
  else if String.eqb method "POST" then
    if form_is_valid then
      match authenticate with
      | Some (k, user) =>
          if is_blocked user then
            login_page
              [(Views.error,
                "Ваш аккаунт заблокирован. Причина: "
                +:+ reason_or_default user)]
          else
            logged_in k
              [(Views.success,
                "Добро пожаловать, " +:+ username user +:+ "!")]
              (match next_param with
               | Some n => n
               | None => "mailings:home"
               end)
      | None => login_page []
      end
    else login_page []
  else login_page [].

End Login.

(** ** Further observations *)

Module Further.
Import Models Env.

(** The place of a status in the life of a mailing. *)
Definition status_rank (s : MailingStatus) : nat :=
  match s with
  | STATUS_CREATED => 0
  | STATUS_STARTED => 1
  | STATUS_COMPLETED => 2
  end.

(** Did a validation hook return without raising? *)
Definition accepted {E A : Type} (r : Raises E A) : bool :=
  match r with Returns _ => true | Raise _ => false end.

(** What a request for mailing [k] may have done to the world: the ledger
    has only grown, by one row per [send_mail] call, every new row belongs
    to mailing [k] and has its address and response text filled in; no
    mailing was added or removed, the other mailings are as they were and
    mailing [k] differs in its status at most. *)
Definition only_delivered_for (k : Z) (w w' : World) : Prop :=
  exists new : list MailingAttempt,
    attempts w' = (attempts w ++ new)%list
    /\ mail_calls w' = mail_calls w + length new
    /\ Forall (fun a => mailing a = k
                        /\ is_Some (recipient_email a)
                        /\ is_Some (server_response a)) new
    /\ (forall k', k' <> k -> mailings w' !! k' = mailings w !! k')
    /\ (forall r, mailings w !! k = Some r ->
         exists s, mailings w' !! k = Some (set_status s r))
    /\ (mailings w !! k = None -> mailings w' !! k = None).

End Further.

(** ** Concrete accounts and a second transport *)

Module Scenario2.
Import Users Models Env Accounts.

Definition boss : Account :=
  {| username := "boss"; account_role := ROLE_MANAGER;
     account_is_superuser := false; is_blocked := false;
     blocked_reason := None; email_verification_token := Some "t9" |}.

Definition bob : Account :=
  {| username := "bob"; account_role := ROLE_USER;
     account_is_superuser := false; is_blocked := false;
     blocked_reason := None; email_verification_token := None |}.

Definition accounts : gmap Z Account := {[ 9%Z := boss; 12%Z := bob ]}.

(** A transport that accepts every address. *)
Definition accepting (calls : nat) (subject message from_email : string)
    (recipient_list : list string) : SendOutcome := Sent.

End Scenario2.

(** * Properties *)

(** ** Status derivation and send eligibility (mailings/models.py) *)

Section Lifecycle.
Import Models.

Lemma status_eqb_eq (a b : MailingStatus) : status_eqb a b = true <-> a = b.
Proof. destruct a, b; simpl; split; (reflexivity || discriminate). Qed.

Lemma status_eqb_refl (a : MailingStatus) : status_eqb a a = true.
Proof. by apply status_eqb_eq. Qed.

Lemma set_status_same (r : MailingRow) : set_status (status r) r = r.
Proof. by destruct r. Qed.

Lemma set_status_twice (s s' : MailingStatus) (r : MailingRow) :
  set_status s (set_status s' r) = set_status s r.
Proof. reflexivity. Qed.

(** The branch taken by [update_status], read off the two comparisons. *)
Lemma new_status_created (r : MailingRow) (now : Z) :
  new_status r now = STATUS_CREATED <-> (now < start_time r)%Z.
Proof.
  unfold new_status.
  destruct (Z.ltb_spec now (start_time r)); [tauto|].
  destruct (Z.leb_spec (start_time r) now), (Z.leb_spec now (end_time r));
    simpl; split; (discriminate || lia).
Qed.

Lemma new_status_started (r : MailingRow) (now : Z) :
  new_status r now = STATUS_STARTED
  <-> (start_time r <= now <= end_time r)%Z.
Proof.
  unfold new_status.
  destruct (Z.ltb_spec now (start_time r)).
  - split; [discriminate | lia].
  - destruct (Z.leb_spec (start_time r) now), (Z.leb_spec now (end_time r));
      simpl; split; (discriminate || lia || done).
Qed.

(** [Completed] is the [else] branch: it needs [start_time <= now] as
    well, which [now > end_time] gives only when the window is not
    inverted. *)
Lemma new_status_completed (r : MailingRow) (now : Z) :
  new_status r now = STATUS_COMPLETED
  <-> (start_time r <= now /\ end_time r < now)%Z.
Proof.
  unfold new_status.
  destruct (Z.ltb_spec now (start_time r)).
  - split; [discriminate | lia].
  - destruct (Z.leb_spec (start_time r) now), (Z.leb_spec now (end_time r));
      simpl; split; (discriminate || lia || done).
Qed.

(** With the row present the call returns; what it returns and what it
    stores is fixed by [new_status]. *)
Lemma update_status_returns (now : Z) (self : Mailing)
    (table : gmap Z MailingRow) (r : MailingRow) :
  table !! pk self = Some r ->
  update_status now self table =
    if status_eqb (status self) (new_status self now)
    then Returns (self, table)
    else Returns (assign_status (new_status self now) self,
                  <[pk self := set_status (new_status self now) r]> table).
Proof.
  intros Hr. unfold update_status, save_update_fields_status.
  destruct (status_eqb _ _); simpl; [done|]. by rewrite Hr.
Qed.

Lemma update_status_result_status (now : Z) (self self' : Mailing)
    (table table' : gmap Z MailingRow) :
  update_status now self table = Returns (self', table') ->
  status self' = new_status self now.
Proof.
  unfold update_status, save_update_fields_status.
  destruct (status_eqb _ _) eqn:E; simpl.
  - intros [= <- _]. by apply status_eqb_eq.
  - destruct (table !! pk self); [|discriminate].
    intros [= <- _]. reflexivity.
Qed.

(** C2.  For every stored mailing and every instant [now],
    [update_status] returns, and the status it leaves on the instance is
    Created exactly when [now < start_time], Started exactly when
    [start_time <= now <= end_time] (both ends included) and, the window
    not being inverted ([start_time <= end_time], which the validated
    invariant [start_time < end_time] implies), Completed exactly when
    [now > end_time]. *)
Theorem update_status_by_window (now : Z) (self : Mailing)
    (table : gmap Z MailingRow) :
  is_Some (table !! pk self) ->
  exists self' table',
    update_status now self table = Returns (self', table')
    /\ (status self' = STATUS_CREATED <-> (now < start_time self)%Z)
    /\ (status self' = STATUS_STARTED
        <-> (start_time self <= now <= end_time self)%Z)
    /\ ((start_time self <= end_time self)%Z ->
        (status self' = STATUS_COMPLETED <-> (now > end_time self)%Z)).
Proof.
  intros [r Hr].
  assert (exists self' table',
             update_status now self table = Returns (self', table'))
    as (self' & table' & Hu).
  { rewrite (update_status_returns _ _ _ _ Hr).
    destruct (status_eqb _ _); eauto. }
  exists self', table'. split; [exact Hu|].
  rewrite (update_status_result_status _ _ _ _ _ Hu).
  rewrite new_status_created, new_status_started, new_status_completed.
  repeat split; try tauto; lia.
Qed.

(** C3.  [can_send] is true exactly on the closed interval
    [start_time, end_time]; assigning any value to the instance's
    [is_active] or [status] does not change its answer, and a stale
    stored status Completed does not stop it from answering true inside
    the window. *)
Theorem can_send_window_only (self : Mailing) (now : Z) :
  (can_send self now = true
   <-> (start_time self <= now <= end_time self)%Z)
  /\ (forall (b : bool) (s : MailingStatus),
        can_send (assign_is_active b (assign_status s self)) now
        = can_send self now)
  /\ (can_send (assign_status STATUS_COMPLETED self) now = true
      <-> (start_time self <= now <= end_time self)%Z).
Proof.
  assert (can_send self now = true
          <-> (start_time self <= now <= end_time self)%Z) as H.
  { unfold can_send. rewrite andb_true_iff, !Z.leb_le. tauto. }
  repeat split; try (by apply H); intros; by apply H.
Qed.

(** C9.  With the row present [update_status] returns.  When the
    computed status equals the one on the instance nothing is written;
    otherwise the stored row changes in its [status] column only (every
    other column and every other row keeps its value) and the instance
    changes in [status] only.  No validation takes part: the call cannot
    raise a [ValidationError] and succeeds for any window.  A second call
    with the same [now] changes nothing further. *)
Theorem update_status_frame (now : Z) (self : Mailing)
    (table : gmap Z MailingRow) (r : MailingRow) :
  table !! pk self = Some r ->
  exists self' table',
    update_status now self table = Returns (self', table')
    /\ (status self = new_status self now ->
        self' = self /\ table' = table)
    /\ (status self <> new_status self now ->
        self' = assign_status (new_status self now) self
        /\ table' = <[pk self := set_status (new_status self now) r]> table)
    /\ (pk self' = pk self
        /\ dict_is_active self' = dict_is_active self
        /\ start_time self' = start_time self
        /\ end_time self' = end_time self
        /\ message self' = message self
        /\ recipients self' = recipients self
        /\ created_at self' = created_at self
        /\ owner self' = owner self)
    /\ (exists r', table' !! pk self = Some r'
        /\ start_time r' = start_time r
        /\ end_time r' = end_time r
        /\ message r' = message r
        /\ recipients r' = recipients r
        /\ created_at r' = created_at r
        /\ owner r' = owner r)
    /\ (forall k, k <> pk self -> table' !! k = table !! k)
    /\ update_status now self' table' = Returns (self', table').
Proof.
  intros Hr. rewrite (update_status_returns _ _ _ _ Hr).
  destruct (status_eqb (status self) (new_status self now)) eqn:E.
  - apply status_eqb_eq in E.
    exists self, table. split; [done|].
    split; [done|]. split; [congruence|].
    split; [done|].
    split; [exists r; done|].
    split; [done|].
    rewrite (update_status_returns _ _ _ _ Hr).
    by rewrite E, status_eqb_refl.
  - assert (status self <> new_status self now) as Hne.
    { intros Heq. apply status_eqb_eq in Heq. congruence. }
    eexists _, _. split; [reflexivity|].
    split; [done|]. split; [done|].
    split; [done|].
    split; [eexists; split; [apply lookup_insert_eq|done]|].
    split; [intros k Hk; by rewrite lookup_insert_ne|].
    unfold update_status. simpl.
    by rewrite status_eqb_refl.
Qed.

End Lifecycle.

(** ** Validation (Mailing.clean, MailingForm) *)

Section Validation.
Import Models Observe.

(** C10.  When [start_time] or [end_time] is missing, [clean] makes no
    check and raises nothing, whatever the key and the clock are. *)
Theorem clean_skips_missing_bound (self : Candidate) (now : Z) :
  c_start_time self = None \/ c_end_time self = None ->
  clean self now = Returns tt.
Proof.
  unfold clean. intros [H | H]; rewrite H; [done|].
  by destruct (c_start_time self).
Qed.

(** C7, as the code has it.  With both bounds present [clean] raises an
    error on [end_time] exactly when [start_time >= end_time]; it raises
    an error on [start_time] exactly when the first check passed, the
    object is new and [start_time] lies before the clock reading; it
    never reports both fields in one outcome; and for an object that is
    already saved a start in the past is accepted. *)
Theorem clean_first_violation_only (k : option Z) (st en now : Z) :
  let self := {| c_pk := k; c_start_time := Some st;
                 c_end_time := Some en |} in
  (reports "end_time" (clean self now) = true <-> (st >= en)%Z)
  /\ (reports "start_time" (clean self now) = true
      <-> (st < en)%Z /\ not_pk self = true /\ (st < now)%Z)
  /\ (clean self now = Returns tt
      <-> (st < en)%Z /\ ~ (not_pk self = true /\ (st < now)%Z))
  /\ ~ (reports "end_time" (clean self now) = true
        /\ reports "start_time" (clean self now) = true)
  /\ (not_pk self = false -> (st < en)%Z -> clean self now = Returns tt).
Proof.
  intros self. unfold clean, reports, names. cbn [c_start_time c_end_time self].
  destruct (Z.geb_spec st en); destruct (not_pk self) eqn:Hnew;
    destruct (Z.ltb_spec st now); simpl;
    intuition (discriminate || lia || congruence).
Qed.

(** Both violations at once: a new mailing with [start_time = 10] and
    [end_time = 5] validated at instant 20 breaks both rules, yet the
    outcome names [end_time] only, so an error on [start_time] is not
    equivalent to "new and in the past". *)
Lemma clean_both_violations_reports_end_time_only :
  let self := {| c_pk := None; c_start_time := Some 10%Z;
                 c_end_time := Some 5%Z |} in
  ((10 >= 5)%Z /\ not_pk self = true /\ (10 < 20)%Z)
  /\ reports "end_time" (clean self 20) = true
  /\ ~ (reports "start_time" (clean self 20) = true
        <-> not_pk self = true /\ (10 < 20)%Z).
Proof.
  simpl. split; [repeat split; lia|]. split; [reflexivity|].
  intros [_ H]. assert (false = true) by (apply H; split; [done|lia]).
  discriminate.
Qed.

(** The form does not report both either.  For a form bound to a blank
    new object, or to a saved one, and two inputs that parsed, the errors
    never name both time fields. *)
Lemma full_clean_one_field (instance : Candidate) (st en : Z)
    (now_form now_model : Z) :
  (not_pk instance = true ->
   c_start_time instance = None /\ c_end_time instance = None) ->
  let errors :=
    Forms.full_clean instance (inr st) (inr en) now_form now_model in
  ~ (names "start_time" errors = true /\ names "end_time" errors = true).
Proof.
  intros Hblank. destruct instance as [k os oe].
  unfold Forms.full_clean, Forms.clean_start_time, Forms.clean, clean,
    names, not_pk in *.
  cbn [c_pk c_start_time c_end_time] in *.
  assert ((match k with Some k => (k =? 0)%Z | None => true end) = true
          -> os = None /\ oe = None) as Hb by exact Hblank.
  clear Hblank.
  destruct (match k with Some k => (k =? 0)%Z | None => true end) eqn:Hnew.
  - destruct Hb as [-> ->]; [done|]. cbn.
    destruct (st <? now_form)%Z; cbn.
    + intros [_ ?]; discriminate.
    + destruct (st >=? en)%Z eqn:Hge; cbn; rewrite ?Hge; cbn.
      * intros [? _]; discriminate.
      * destruct (st <? now_model)%Z; cbn; intros [_ ?]; discriminate.
  - clear Hb. cbn.
    destruct (st >=? en)%Z eqn:Hge; cbn; rewrite ?Hge; cbn.
    + destruct oe as [old|]; cbn; [destruct (st >=? old)%Z; cbn|];
        intros [? _]; discriminate.
    + intros [? _]; discriminate.
Qed.

End Validation.

(** ** The delivery loop (send_mailing, send_mailings) *)

Section Delivery.
Import Users Models Env Observe.
Local Open Scope list_scope.

Variable clock : nat -> Z.
Variable send_mail_outcome :
  nat -> string -> string -> string -> list string -> SendOutcome.
Variable DEFAULT_FROM_EMAIL : string.

Abbreviation answer := (answer send_mail_outcome DEFAULT_FROM_EMAIL).
Abbreviation batch_outcomes :=
  (batch_outcomes send_mail_outcome DEFAULT_FROM_EMAIL).
Abbreviation batch_attempts :=
  (batch_attempts clock send_mail_outcome DEFAULT_FROM_EMAIL).
Abbreviation batch_trace :=
  (batch_trace clock send_mail_outcome DEFAULT_FROM_EMAIL).
Abbreviation batch_lines :=
  (batch_lines send_mail_outcome DEFAULT_FROM_EMAIL).

(** The loop of the view, in closed form: it runs to the end of the
    list whatever the answers are. *)
Lemma send_loop_effect (m : Mailing) (rs : list Client) (s f : nat)
    (w : World) :
  Views.send_loop clock send_mail_outcome DEFAULT_FROM_EMAIL m rs s f w =
    (s + count (fun o => negb (thrown o)) (batch_outcomes (mail_calls w) m rs),
     f + count thrown (batch_outcomes (mail_calls w) m rs),
     {| mailings := mailings w;
        attempts :=
          attempts w ++ batch_attempts (clock_reads w) (mail_calls w) m rs;
        clock_reads := clock_reads w + length rs;
        mail_calls := mail_calls w + length rs;
        trace :=
          trace w ++ batch_trace (clock_reads w) (mail_calls w) m rs |}).
Proof.
  revert s f w. induction rs as [|c rs IH]; intros s f w.
  - simpl. unfold count. simpl. rewrite !Nat.add_0_r, !app_nil_r.
    by destruct w.
  - cbn [Views.send_loop]. unfold send_mail, create_attempt, timezone_now, log.
    cbn [Observe.batch_outcomes Observe.batch_attempts Observe.batch_trace].
    fold (answer (mail_calls w) m c).
    destruct (answer (mail_calls w) m c) as [|str_e] eqn:Ha;
      cbn -[Views.send_loop]; rewrite IH; cbn;
      unfold count; cbn; rewrite <- !app_assoc; cbn;
      repeat f_equal; lia.
Qed.

(** The loop of the command does the same and writes one line each. *)
Lemma command_send_loop_effect (m : Mailing) (rs : list Client)
    (s f : nat) (out : list (SendMailings.Style * string)) (w : World) :
  SendMailings.send_loop clock send_mail_outcome DEFAULT_FROM_EMAIL
    m rs s f out w =
    let '(s', f', w') :=
      Views.send_loop clock send_mail_outcome DEFAULT_FROM_EMAIL
        m rs s f w in
    (s', f', (out ++ batch_lines (mail_calls w) m rs)%list, w').
Proof.
  revert s f out w. induction rs as [|c rs IH]; intros s f out w.
  - simpl. by rewrite app_nil_r.
  - cbn [SendMailings.send_loop Views.send_loop Observe.batch_lines].
    unfold send_mail. fold (answer (mail_calls w) m c).
    destruct (answer (mail_calls w) m c) as [|str_e] eqn:Ha;
      cbn -[SendMailings.send_loop Views.send_loop create_attempt];
      rewrite IH;
      destruct (Views.send_loop _ _ _ _ _ _ _ _) as [[s' f'] w'];
      unfold create_attempt; cbn; rewrite <- app_assoc; reflexivity.
Qed.

(** *** Facts about a batch *)

Lemma batch_outcomes_length (calls : nat) (m : Mailing) (rs : list Client) :
  length (batch_outcomes calls m rs) = length rs.
Proof. revert calls. induction rs; intros; simpl; [done|]. by rewrite IHrs. Qed.

Lemma batch_attempts_length (reads calls : nat) (m : Mailing)
    (rs : list Client) :
  length (batch_attempts reads calls m rs) = length rs.
Proof.
  revert reads calls. induction rs; intros; simpl; [done|]. by rewrite IHrs.
Qed.

Lemma count_cons {A : Type} (p : A -> bool) (x : A) (l : list A) :
  count p (x :: l) = (if p x then 1 else 0) + count p l.
Proof. unfold count. simpl. by destruct (p x). Qed.

Lemma count_app {A : Type} (p : A -> bool) (l1 l2 : list A) :
  count p (l1 ++ l2) = count p l1 + count p l2.
Proof.
  induction l1 as [|x l1 IH]; [done|].
  simpl. rewrite !count_cons, IH. lia.
Qed.

Lemma count_split (os : list SendOutcome) :
  count (fun o => negb (thrown o)) os + count thrown os = length os.
Proof.
  induction os as [|o os IH]; [done|].
  rewrite !count_cons. simpl. destruct (thrown o); simpl; lia.
Qed.

Lemma batch_attempts_failed (reads calls : nat) (m : Mailing)
    (rs : list Client) :
  count is_failed (batch_attempts reads calls m rs)
  = count thrown (batch_outcomes calls m rs).
Proof.
  revert reads calls. induction rs as [|c rs IH]; intros; [done|].
  simpl. rewrite !count_cons, IH.
  by destruct (answer calls m c).
Qed.

Lemma batch_attempts_success (reads calls : nat) (m : Mailing)
    (rs : list Client) :
  count is_success (batch_attempts reads calls m rs)
  = count (fun o => negb (thrown o)) (batch_outcomes calls m rs).
Proof.
  revert reads calls. induction rs as [|c rs IH]; intros; [done|].
  simpl. rewrite !count_cons, IH.
  by destruct (answer calls m c).
Qed.

Lemma batch_attempts_recipients (reads calls : nat) (m : Mailing)
    (rs : list Client) :
  Forall2 (fun c a => mailing a = pk m /\ recipient_email a = Some (email c))
          rs (batch_attempts reads calls m rs).
Proof.
  revert reads calls. induction rs as [|c rs IH]; intros; simpl.
  - constructor.
  - constructor; [|apply IH]. by destruct (answer calls m c).
Qed.

Lemma batch_attempts_recorded (reads calls : nat) (m : Mailing)
    (rs : list Client) :
  Forall2 recorded_as (batch_outcomes calls m rs)
          (batch_attempts reads calls m rs).
Proof.
  revert reads calls. induction rs as [|c rs IH]; intros; simpl.
  - constructor.
  - constructor; [|apply IH]. by destruct (answer calls m c).
Qed.

Lemma batch_trace_sends (reads calls : nat) (m : Mailing) (rs : list Client) :
  sends (batch_trace reads calls m rs) = map (fun c => [email c]) rs.
Proof.
  revert reads calls. induction rs as [|c rs IH]; intros; simpl; [done|].
  by rewrite IH.
Qed.

Lemma batch_trace_no_update (reads calls : nat) (m : Mailing)
    (rs : list Client) :
  count is_update (batch_trace reads calls m rs) = 0.
Proof.
  revert reads calls. induction rs as [|c rs IH]; intros; [done|].
  simpl. rewrite !count_cons. simpl. apply IH.
Qed.

(** [update_status] on a freshly loaded instance whose row is present. *)
Lemma call_update_status_loaded (k : Z) (r : MailingRow) (w : World) :
  mailings w !! k = Some r ->
  call_update_status clock (from_db k r) w =
    (Returns (from_db k (set_status (new_status r (clock (clock_reads w))) r)),
     {| mailings :=
          <[k := set_status (new_status r (clock (clock_reads w))) r]>
            (mailings w);
        attempts := attempts w;
        clock_reads := S (clock_reads w);
        mail_calls := mail_calls w;
        trace := trace w ++ [EvUpdateStatus k] |}).
Proof.
  intros Hr. unfold call_update_status, timezone_now, log, with_mailings.
  cbn. erewrite update_status_returns by exact Hr. cbn.
  destruct (status_eqb (status r) (new_status r (clock (clock_reads w))))
    eqn:E; [|done].
  apply status_eqb_eq in E. rewrite <- E, set_status_same.
  by rewrite insert_id.
Qed.

(** *** The two entry points in closed form *)

(** The manual send for a logged-in user who may act on the mailing,
    inside the window and with at least one recipient. *)
Lemma send_mailing_effect (u : User) (k : Z) (r : MailingRow) (w : World) :
  mailings w !! k = Some r ->
  Views.owner_differs (from_db k r) u && negb (can_view_all_mailings u)
    = false ->
  can_send (from_db k r) (clock (clock_reads w)) = true ->
  recipients r <> [] ->
  let m := from_db k r in
  let rs := recipients r in
  let outs := batch_outcomes (mail_calls w) m rs in
  let ns := new_status r (clock (S (clock_reads w) + length rs)) in
  Views.send_mailing clock send_mail_outcome DEFAULT_FROM_EMAIL
    {| Views.user := Some u |} k w =
    (Views.respond
       ((if (0 <? count (fun o => negb (thrown o)) outs)%nat then
           [(Views.success,
             "Успешно отправлено писем: "
             +:+ pretty (count (fun o => negb (thrown o)) outs))]
         else [])
        ++ (if (0 <? count thrown outs)%nat then
              [(Views.warning,
                "Не удалось отправить писем: "
                +:+ pretty (count thrown outs))]
            else []))
       (Views.redirect (Views.mailing_detail k)),
     {| mailings := <[k := set_status ns r]> (mailings w);
        attempts :=
          attempts w ++ batch_attempts (S (clock_reads w)) (mail_calls w) m rs;
        clock_reads := S (S (clock_reads w) + length rs);
        mail_calls := mail_calls w + length rs;
        trace :=
          trace w ++ batch_trace (S (clock_reads w)) (mail_calls w) m rs
                  ++ [EvUpdateStatus k] |}).
Proof.
  intros Hr Hacc Hsend Hne m rs outs ns. subst m rs outs ns.
  unfold Views.send_mailing. cbn [Views.user]. rewrite Hr.
  unfold Views.send_mailing_body. rewrite Hacc.
  cbn [getattr_is_active dict_is_active from_db truthy negb].
  unfold call_can_send, timezone_now. cbn [clock_reads].
  rewrite Hsend. cbn [negb].
  cbn [recipients row from_db].
  destruct (recipients r) as [|c rs'] eqn:Hrs; [done|]. rewrite <- Hrs.
  rewrite send_loop_effect.
  cbn [mailings attempts clock_reads mail_calls trace].
  rewrite call_update_status_loaded by exact Hr.
  cbn [mailings attempts clock_reads mail_calls trace pk from_db].
  rewrite !Nat.add_0_l, <- app_assoc. reflexivity.
Qed.

(** The command for a mailing inside the window with at least one
    recipient. *)
Lemma handle_effect (k : Z) (r : MailingRow) (w : World) :
  mailings w !! k = Some r ->
  can_send (from_db k r) (clock (clock_reads w)) = true ->
  recipients r <> [] ->
  let m := from_db k r in
  let rs := recipients r in
  let outs := batch_outcomes (mail_calls w) m rs in
  let ns := new_status r (clock (S (clock_reads w) + length rs)) in
  SendMailings.handle clock send_mail_outcome DEFAULT_FROM_EMAIL k w =
    ((([(SendMailings.plain, "Начинаем отправку рассылки #" +:+ pretty k);
       (SendMailings.plain, "Сообщение: " +:+ subject (message r));
       (SendMailings.plain, "Получателей: " +:+ pretty (length rs));
       (SendMailings.plain, SendMailings.str_times "-" 50)]
      ++ batch_lines (mail_calls w) m rs
      ++ [(SendMailings.plain, SendMailings.str_times "-" 50);
          (SendMailings.SUCCESS,
           "Успешно отправлено: "
           +:+ pretty (count (fun o => negb (thrown o)) outs))]
      ++ (if (0 <? count thrown outs)%nat then
            [(SendMailings.WARNING,
              "Не удалось отправить: " +:+ pretty (count thrown outs))]
          else [])
      ++ [(SendMailings.SUCCESS,
           "Рассылка завершена! Новый статус: " +:+ status_value ns)])%list,
      None),
     {| mailings := <[k := set_status ns r]> (mailings w);
        attempts :=
          attempts w ++ batch_attempts (S (clock_reads w)) (mail_calls w) m rs;
        clock_reads := S (S (clock_reads w) + length rs);
        mail_calls := mail_calls w + length rs;
        trace :=
          trace w ++ batch_trace (S (clock_reads w)) (mail_calls w) m rs
                  ++ [EvUpdateStatus k] |}).
Proof.
  intros Hr Hsend Hne m rs outs ns. subst m rs outs ns.
  unfold SendMailings.handle. rewrite Hr.
  unfold SendMailings.handle_body.
  unfold call_can_send, timezone_now. cbn [clock_reads].
  rewrite Hsend. cbn [negb].
  cbn [recipients row from_db].
  destruct (recipients r) as [|c rs'] eqn:Hrs; [done|]. rewrite <- Hrs.
  rewrite command_send_loop_effect, send_loop_effect.
  cbn [mailings attempts clock_reads mail_calls trace].
  rewrite call_update_status_loaded by exact Hr.
  cbn [mailings attempts clock_reads mail_calls trace pk from_db
       status row set_status message].
  rewrite !Nat.add_0_l.
  destruct (0 <? count thrown _)%nat; cbn [app];
    rewrite <- ?app_assoc; reflexivity.
Qed.

Abbreviation delivered_batch :=
  (delivered_batch send_mail_outcome DEFAULT_FROM_EMAIL).

Lemma batch_is_delivered (k : Z) (r : MailingRow) (N K : nat) (w w' : World) :
  length (recipients r) = N ->
  count thrown (batch_outcomes (mail_calls w) (from_db k r) (recipients r))
    = K ->
  attempts w' =
    attempts w ++ batch_attempts (S (clock_reads w)) (mail_calls w)
                    (from_db k r) (recipients r) ->
  trace w' =
    trace w ++ batch_trace (S (clock_reads w)) (mail_calls w)
                 (from_db k r) (recipients r)
            ++ [EvUpdateStatus k] ->
  K <= N /\ delivered_batch (from_db k r) (recipients r) N K w w'.
Proof.
  intros HN HK Hatt Htr.
  pose proof (count_split
                (batch_outcomes (mail_calls w) (from_db k r) (recipients r)))
    as Hsplit.
  rewrite batch_outcomes_length, HN, HK in Hsplit.
  split; [lia|].
  eexists _, _. split; [exact Hatt|].
  split; [by rewrite batch_attempts_length|].
  split; [by rewrite batch_attempts_failed|].
  split; [rewrite batch_attempts_success; lia|].
  split; [apply batch_attempts_recipients|].
  split; [apply batch_attempts_recorded|].
  split; [exact Htr|].
  split; [apply batch_trace_sends | apply batch_trace_no_update].
Qed.

(** C1.  Take a stored mailing with [N >= 1] recipients, inside its
    window, and let the transport fail for [K] of them.  The manual send
    (for a user allowed to act on the mailing) and the command each append
    exactly [N] ledger rows, one per recipient in order, [K] of them
    Failed with the text of the exception and [N - K] Success with the
    fixed delivery text, each with the recipient's address; [send_mail] is
    called once per recipient whatever the earlier answers were; the
    counts reported are [N - K] and [K]; and the status is recomputed and
    stored once, as the last step. *)
Theorem execute_records_every_recipient (u : User) (k : Z) (r : MailingRow)
    (w : World) (N K : nat) :
  mailings w !! k = Some r ->
  Views.owner_differs (from_db k r) u && negb (can_view_all_mailings u)
    = false ->
  can_send (from_db k r) (clock (clock_reads w)) = true ->
  length (recipients r) = N ->
  1 <= N ->
  count thrown (batch_outcomes (mail_calls w) (from_db k r) (recipients r))
    = K ->
  K <= N
  /\ (let '(resp, w') :=
        Views.send_mailing clock send_mail_outcome DEFAULT_FROM_EMAIL
          {| Views.user := Some u |} k w in
      delivered_batch (from_db k r) (recipients r) N K w w'
      /\ Views.http resp = Views.redirect (Views.mailing_detail k)
      /\ Views.flashes resp =
           (if (0 <? N - K)%nat then
              [(Views.success,
                "Успешно отправлено писем: " +:+ pretty (N - K))]
            else [])
           ++ (if (0 <? K)%nat then
                 [(Views.warning,
                   "Не удалось отправить писем: " +:+ pretty K)]
               else [])
      /\ mailings w' =
           <[k := set_status (new_status r (clock (S (clock_reads w) + N))) r]>
             (mailings w))
  /\ (let '(run, w') :=
        SendMailings.handle clock send_mail_outcome DEFAULT_FROM_EMAIL k w in
      delivered_batch (from_db k r) (recipients r) N K w w'
      /\ run.2 = None
      /\ (SendMailings.SUCCESS, "Успешно отправлено: " +:+ pretty (N - K))
           ∈ run.1
      /\ (0 < K ->
           (SendMailings.WARNING, "Не удалось отправить: " +:+ pretty K)
             ∈ run.1)
      /\ mailings w' =
           <[k := set_status (new_status r (clock (S (clock_reads w) + N))) r]>
             (mailings w)).
Proof.
  intros Hr Hacc Hsend HN HN1 HK.
  assert (recipients r <> []) as Hne.
  { intros E. rewrite E in HN. simpl in HN. lia. }
  pose proof (count_split
                (batch_outcomes (mail_calls w) (from_db k r) (recipients r)))
    as Hsplit.
  rewrite batch_outcomes_length, HN, HK in Hsplit.
  assert (count (fun o => negb (thrown o))
            (batch_outcomes (mail_calls w) (from_db k r) (recipients r))
          = N - K) as HS by lia.
  split; [lia|]. split.
  - rewrite (send_mailing_effect u k r w Hr Hacc Hsend Hne).
    cbv zeta. rewrite HS, HK, HN.
    split; [by apply (batch_is_delivered k r N K)|].
    split; [reflexivity|]. split; reflexivity.
  - rewrite (handle_effect k r w Hr Hsend Hne).
    cbv zeta. rewrite HS, HK, HN.
    split; [by apply (batch_is_delivered k r N K)|].
    split; [reflexivity|].
    cbn [fst snd]. split.
    + rewrite !elem_of_app, !elem_of_cons. tauto.
    + split; [|reflexivity].
      intros HK0. apply Nat.ltb_lt in HK0. rewrite HK0.
      rewrite !elem_of_app, !elem_of_cons. tauto.
Qed.

(** C8.  For a stored mailing without recipients neither the manual send
    nor the command ever calls [send_mail], adds a ledger row (so no
    Failed one either), touches the mailing table or recomputes the
    status, whoever asks and whenever.  When the send is not refused
    earlier (inside the window and, for the view, a user allowed to act on
    the mailing) the answer is the dedicated warning about missing
    recipients, not an error message. *)
Theorem no_recipients_is_nothing_to_do (k : Z) (r : MailingRow) (w : World) :
  mailings w !! k = Some r ->
  recipients r = [] ->
  (forall request : Views.Request,
     let '(resp, w') :=
       Views.send_mailing clock send_mail_outcome DEFAULT_FROM_EMAIL
         request k w in
     attempts w' = attempts w
     /\ mail_calls w' = mail_calls w
     /\ trace w' = trace w
     /\ mailings w' = mailings w)
  /\ (let '(run, w') :=
        SendMailings.handle clock send_mail_outcome DEFAULT_FROM_EMAIL k w in
      attempts w' = attempts w
      /\ mail_calls w' = mail_calls w
      /\ trace w' = trace w
      /\ mailings w' = mailings w)
  /\ (can_send (from_db k r) (clock (clock_reads w)) = true ->
      (forall u : User,
         Views.owner_differs (from_db k r) u
         && negb (can_view_all_mailings u) = false ->
         (Views.send_mailing clock send_mail_outcome DEFAULT_FROM_EMAIL
            {| Views.user := Some u |} k w).1
         = Views.respond [(Views.warning, "У рассылки нет получателей!")]
             (Views.redirect (Views.mailing_detail k)))
      /\ (SendMailings.handle clock send_mail_outcome DEFAULT_FROM_EMAIL
            k w).1
         = ([(SendMailings.WARNING, "У рассылки нет получателей!")], None)).
Proof.
  intros Hr Hempty. split; [|split].
  - intros [[u|]]; unfold Views.send_mailing; cbn [Views.user]; [|done].
    rewrite Hr. unfold Views.send_mailing_body.
    destruct (_ && _); [done|].
    cbn [getattr_is_active dict_is_active from_db truthy negb].
    unfold call_can_send, timezone_now.
    destruct (can_send _ _); cbn [negb]; [|done].
    cbn [recipients row from_db]. rewrite Hempty. done.
  - unfold SendMailings.handle. rewrite Hr.
    unfold SendMailings.handle_body, call_can_send, timezone_now.
    destruct (can_send _ _); cbn [negb]; [|done].
    cbn [recipients row from_db]. rewrite Hempty. done.
  - intros Hsend. split.
    + intros u Hacc. unfold Views.send_mailing. cbn [Views.user]. rewrite Hr.
      unfold Views.send_mailing_body. rewrite Hacc.
      cbn [getattr_is_active dict_is_active from_db truthy negb].
      unfold call_can_send, timezone_now. cbn [clock_reads].
      rewrite Hsend. cbn [negb recipients row from_db]. by rewrite Hempty.
    + unfold SendMailings.handle. rewrite Hr.
      unfold SendMailings.handle_body, call_can_send, timezone_now.
      cbn [clock_reads]. rewrite Hsend.
      cbn [negb recipients row from_db]. by rewrite Hempty.
Qed.

End Delivery.

(** ** Deactivation (toggle_mailing_active and the guards that read it) *)

Section Deactivation.
Import Users Models Env Observe.
Local Open Scope list_scope.

Variable clock : nat -> Z.
Variable send_mail_outcome :
  nat -> string -> string -> string -> list string -> SendOutcome.
Variable DEFAULT_FROM_EMAIL : string.

(** On a freshly loaded instance the expression [mailing.is_active] is the
    bound method, which counts as true. *)
Lemma loaded_is_active_truthy (k : Z) (r : MailingRow) :
  truthy (getattr_is_active (from_db k r)) = true.
Proof. reflexivity. Qed.

(** Assigning [is_active] on the instance and saving it writes back the
    columns that were loaded: there is no column for the assigned value. *)
Lemma save_after_assign_is_active (k : Z) (r : MailingRow) (b : bool)
    (table : gmap Z MailingRow) :
  table !! k = Some r ->
  save (assign_is_active b (from_db k r)) table = table.
Proof.
  intros Hr. unfold save. cbn. rewrite Hr.
  destruct r. cbn. by apply insert_id.
Qed.

(** C5, at the code.  For a caller who holds the manage-users capability
    and a stored mailing, [toggle_mailing_active] announces that the
    mailing was deactivated and leaves the whole world as it was: nothing
    records the new value, so the next request loads the same mailing with
    [mailing.is_active] still true. *)
Theorem toggle_mailing_active_stores_nothing (u : User) (k : Z)
    (r : MailingRow) (w : World) :
  can_manage_users u = true ->
  mailings w !! k = Some r ->
  Views.toggle_mailing_active {| Views.user := Some u |} k w =
    (Views.respond [(Views.success, "Рассылка успешно деактивирована.")]
       (Views.redirect (Views.mailing_detail k)), w).
Proof.
  intros Hu Hr. unfold Views.toggle_mailing_active. cbn [Views.user].
  rewrite Hu, Hr. cbn [negb].
  rewrite loaded_is_active_truthy. cbn [negb].
  rewrite (save_after_assign_is_active k r false _ Hr).
  cbn. by destruct w.
Qed.

(** The refusal about a deactivated mailing is never what [send_mailing]
    answers: the guard reads the bound method. *)
Lemma send_mailing_never_refuses_inactive (request : Views.Request) (k : Z)
    (w : World) :
  (Views.error,
   "Рассылка деактивирована менеджером и не может быть отправлена.")
  ∉ Views.flashes
      (Views.send_mailing clock send_mail_outcome DEFAULT_FROM_EMAIL
         request k w).1.
Proof.
  unfold Views.send_mailing.
  destruct (Views.user request) as [u|]; [|cbn; apply not_elem_of_nil].
  destruct (mailings w !! k) as [r|]; [|cbn; apply not_elem_of_nil].
  unfold Views.send_mailing_body.
  destruct (_ && _).
  { cbn. rewrite elem_of_cons, elem_of_nil. intuition discriminate. }
  rewrite loaded_is_active_truthy. cbn [negb].
  destruct (call_can_send clock (from_db k r) w) as [sendable w1].
  destruct sendable; cbn [negb].
  2:{ cbn. rewrite elem_of_cons, elem_of_nil. intuition discriminate. }
  destruct (recipients (from_db k r)) as [|c rs].
  { cbn. rewrite elem_of_cons, elem_of_nil. intuition discriminate. }
  destruct (Views.send_loop _ _ _ _ _ _ _ _) as [[sc fc] w2].
  destruct (call_update_status clock (from_db k r) w2) as [[m'|e] w3].
  - cbn [Views.flashes Views.respond fst].
    destruct (0 <? sc)%nat, (0 <? fc)%nat; cbn [app];
      rewrite ?elem_of_cons, ?elem_of_nil; intuition discriminate.
  - cbn. apply not_elem_of_nil.
Qed.

(** The command never reads [is_active]: whatever is assigned to it on the
    instance, the run is the same. *)
Lemma command_send_loop_ignores_is_active (b : bool) (m : Mailing)
    (rs : list Client) (s f : nat)
    (out : list (SendMailings.Style * string)) (w : World) :
  SendMailings.send_loop clock send_mail_outcome DEFAULT_FROM_EMAIL
    (assign_is_active b m) rs s f out w
  = SendMailings.send_loop clock send_mail_outcome DEFAULT_FROM_EMAIL
      m rs s f out w.
Proof.
  revert s f out w. induction rs as [|c rs IH]; intros; [done|].
  cbn [SendMailings.send_loop]. cbn [row assign_is_active].
  destruct (send_mail _ _ _ _ _ _) as [[|str_e] w1];
    unfold create_attempt; cbn [pk assign_is_active]; apply IH.
Qed.

Lemma handle_body_ignores_is_active (b : bool) (k : Z) (m : Mailing)
    (w : World) :
  SendMailings.handle_body clock send_mail_outcome DEFAULT_FROM_EMAIL
    k (assign_is_active b m) w
  = SendMailings.handle_body clock send_mail_outcome DEFAULT_FROM_EMAIL
      k m w.
Proof.
  unfold SendMailings.handle_body.
  unfold call_can_send, can_send. cbn [row assign_is_active].
  destruct (timezone_now clock w) as [now w1].
  destruct (negb _); [done|].
  destruct (recipients m) as [|c rs] eqn:Hrs; [done|].
  rewrite command_send_loop_ignores_is_active.
  destruct (SendMailings.send_loop _ _ _ _ _ _ _ _ _) as [[[sc fc] out] w2].
  unfold call_update_status, update_status, save_update_fields_status.
  cbn [row pk assign_is_active assign_status].
  destruct (timezone_now clock w2) as [now2 w3].
  destruct (negb _); [|done].
  destruct (mailings _ !! pk m); done.
Qed.

(** The guard of the view does fire for an instance that carries a false
    [is_active] attribute: nothing is sent and nothing is recorded. *)
Lemma send_mailing_body_refuses_false_attribute (u : User) (m : Mailing)
    (w : World) :
  Views.owner_differs m u && negb (can_view_all_mailings u) = false ->
  dict_is_active m = Some false ->
  Views.send_mailing_body clock send_mail_outcome DEFAULT_FROM_EMAIL u m w =
    (Views.respond
       [(Views.error,
         "Рассылка деактивирована менеджером и не может быть отправлена.")]
       (Views.redirect (Views.mailing_detail (pk m))), w).
Proof.
  intros Hacc Hd. unfold Views.send_mailing_body, getattr_is_active.
  by rewrite Hacc, Hd.
Qed.

(** X20.  For a stored mailing and a user allowed to act on it, the
    command and the manual send leave the same world behind: same ledger,
    same transport calls, same stored status, same trace; for a missing
    mailing both leave the world untouched. *)
Lemma handle_matches_send_mailing (u : User) (k : Z) (w : World) :
  (forall r, mailings w !! k = Some r ->
     Views.owner_differs (from_db k r) u && negb (can_view_all_mailings u)
       = false) ->
  (SendMailings.handle clock send_mail_outcome DEFAULT_FROM_EMAIL k w).2
  = (Views.send_mailing clock send_mail_outcome DEFAULT_FROM_EMAIL
       {| Views.user := Some u |} k w).2.
Proof.
  intros Hacc.
  destruct (mailings w !! k) as [r|] eqn:Hr.
  2:{ unfold SendMailings.handle, Views.send_mailing. cbn [Views.user].
      by rewrite Hr. }
  specialize (Hacc r eq_refl).
  destruct (can_send (from_db k r) (clock (clock_reads w))) eqn:Hsend.
  - destruct (recipients r) as [|c rs] eqn:Hrs.
    + unfold SendMailings.handle, Views.send_mailing. cbn [Views.user].
      rewrite Hr. unfold SendMailings.handle_body, Views.send_mailing_body.
      rewrite Hacc, loaded_is_active_truthy. cbn [negb].
      unfold call_can_send, timezone_now. rewrite Hsend. cbn [negb].
      cbn [recipients row from_db]. by rewrite Hrs.
    + assert (recipients r <> []) as Hne by (by rewrite Hrs).
      rewrite (handle_effect clock send_mail_outcome DEFAULT_FROM_EMAIL
                 k r w Hr Hsend Hne).
      by rewrite (send_mailing_effect clock send_mail_outcome
                    DEFAULT_FROM_EMAIL u k r w Hr Hacc Hsend Hne).
  - unfold SendMailings.handle, Views.send_mailing. cbn [Views.user].
    rewrite Hr. unfold SendMailings.handle_body, Views.send_mailing_body.
    rewrite Hacc, loaded_is_active_truthy. cbn [negb].
    unfold call_can_send, timezone_now. by rewrite Hsend.
Qed.

End Deactivation.

(** ** The concrete campaign, worked through *)

Section Worked.
Import Users Models Env Observe.
Local Open Scope list_scope.

(** The method that the name [is_active] ends up bound to refreshes the
    status and answers whether it is Started: it is the window test, not
    an administrative flag. *)
Lemma is_active_method_is_window_test (now : Z) (self : Mailing)
    (table : gmap Z MailingRow) :
  is_Some (table !! pk self) ->
  exists self' table',
    Models.is_active now self table
    = Returns (can_send self now, (self', table')).
Proof.
  intros [r Hr]. unfold Models.is_active.
  rewrite (update_status_returns _ _ _ _ Hr).
  assert (status_eqb (new_status self now) STATUS_STARTED
          = can_send self now) as Hw.
  { unfold new_status, can_send.
    destruct (now <? start_time self)%Z eqn:E; [|by destruct (_ && _)].
    apply Z.ltb_lt in E.
    assert ((start_time self <=? now)%Z = false) as -> by (apply Z.leb_gt; lia).
    reflexivity. }
  destruct (status_eqb (status self) (new_status self now)) eqn:E.
  - apply status_eqb_eq in E. rewrite E, Hw. eauto.
  - cbn. rewrite Hw. eauto.
Qed.

(** C4, at the code.  The manager deactivates mailing 1 and is told so;
    the owner then triggers the manual send inside the window: the send
    is not refused, both recipients are mailed and two ledger rows are
    written. *)
Theorem deactivated_mailing_is_still_sent :
  let toggled :=
    Views.toggle_mailing_active
      {| Views.user := Some Scenario.manager |} 1 Scenario.world in
  let sent :=
    Views.send_mailing Scenario.clock Scenario.transport
      Scenario.from_address
      {| Views.user := Some Scenario.owner_user |} 1 toggled.2 in
  Views.flashes toggled.1
    = [(Views.success, "Рассылка успешно деактивирована.")]
  /\ Views.flashes sent.1
     = [(Views.success, "Успешно отправлено писем: 1");
        (Views.warning, "Не удалось отправить писем: 1")]
  /\ sends (trace sent.2) = [["a@x.com"]; ["b@x.com"]]
  /\ map attempt_status (attempts sent.2) = [STATUS_SUCCESS; STATUS_FAILED]
  /\ map recipient_email (attempts sent.2)
     = [Some "a@x.com"; Some "b@x.com"].
Proof. vm_compute. repeat split; reflexivity. Qed.

(** C6, at the code.  After the same deactivation the command sends
    mailing 1 as well.  Its body has no [is_active] guard at all: handed
    an instance whose [is_active] attribute is false, the view refuses and
    leaves the world alone, the command mails both recipients. *)
Theorem command_sends_deactivated_mailing :
  let toggled :=
    Views.toggle_mailing_active
      {| Views.user := Some Scenario.manager |} 1 Scenario.world in
  let run :=
    SendMailings.handle Scenario.clock Scenario.transport
      Scenario.from_address 1 toggled.2 in
  let inactive := assign_is_active false (from_db 1 Scenario.campaign) in
  let by_view :=
    Views.send_mailing_body Scenario.clock Scenario.transport
      Scenario.from_address Scenario.owner_user inactive Scenario.world in
  let by_command :=
    SendMailings.handle_body Scenario.clock Scenario.transport
      Scenario.from_address 1 inactive Scenario.world in
  Views.flashes toggled.1
    = [(Views.success, "Рассылка успешно деактивирована.")]
  /\ run.1.2 = None
  /\ sends (trace run.2) = [["a@x.com"]; ["b@x.com"]]
  /\ map attempt_status (attempts run.2) = [STATUS_SUCCESS; STATUS_FAILED]
  /\ by_view.2 = Scenario.world
  /\ Views.flashes by_view.1
     = [(Views.error,
         "Рассылка деактивирована менеджером и не может быть отправлена.")]
  /\ sends (trace by_command.2) = [["a@x.com"]; ["b@x.com"]]
  /\ map attempt_status (attempts by_command.2)
     = [STATUS_SUCCESS; STATUS_FAILED].
Proof. vm_compute. repeat split; reflexivity. Qed.

(** The scenario of the specification: one success, one failure with the
    text "mailbox full", status Started afterwards. *)
Example send_mailing_scenario :
  let sent :=
    Views.send_mailing Scenario.clock Scenario.transport
      Scenario.from_address
      {| Views.user := Some Scenario.owner_user |} 1 Scenario.world in
  map server_response (attempts sent.2)
    = [Some "Письмо успешно отправлено"; Some "mailbox full"]
  /\ status <$> (mailings sent.2 !! 1%Z) = Some STATUS_STARTED
  /\ count is_update (trace sent.2) = 1
  /\ last (trace sent.2) = Some (EvUpdateStatus 1).
Proof. vm_compute. repeat split; reflexivity. Qed.

(** *** The hypotheses of the theorems above can be met *)

Lemma update_status_by_window_witness :
  is_Some (mailings Scenario.world !! 1%Z)
  /\ (0 <= 7200)%Z
  /\ exists self' table',
       update_status 3600 (from_db 1 Scenario.campaign)
         (mailings Scenario.world) = Returns (self', table')
       /\ (status self' = STATUS_CREATED <-> (3600 < 0)%Z)
       /\ (status self' = STATUS_STARTED <-> (0 <= 3600 <= 7200)%Z)
       /\ (status self' = STATUS_COMPLETED <-> (3600 > 7200)%Z).
Proof.
  assert (is_Some (mailings Scenario.world !! 1%Z)) as H1
    by (eexists; vm_compute; reflexivity).
  assert (0 <= 7200)%Z as H2 by lia.
  split; [exact H1|]. split; [exact H2|].
  destruct (update_status_by_window 3600 (from_db 1 Scenario.campaign)
              (mailings Scenario.world) H1)
    as (self' & table' & Hu & Hc & Hs & Hd).
  exists self', table'.
  exact (conj Hu (conj Hc (conj Hs (Hd H2)))).
Defined.

Lemma update_status_frame_witness :
  mailings Scenario.world !! 1%Z = Some Scenario.campaign
  /\ exists self' table',
       update_status 3600 (from_db 1 Scenario.campaign)
         (mailings Scenario.world) = Returns (self', table')
       /\ status self' = STATUS_STARTED
       /\ table' !! 1%Z = Some (set_status STATUS_STARTED Scenario.campaign)
       /\ table' !! 2%Z = Some Scenario.empty_campaign
       /\ update_status 3600 self' table' = Returns (self', table').
Proof.
  assert (mailings Scenario.world !! 1%Z = Some Scenario.campaign) as H1
    by (vm_compute; reflexivity).
  split; [exact H1|].
  destruct (update_status_frame 3600 (from_db 1 Scenario.campaign)
              (mailings Scenario.world) Scenario.campaign H1)
    as (self' & table' & Hu & _ & Hchg & _ & _ & Hoth & Hidem).
  exists self', table'.
  destruct Hchg as [-> ->]; [vm_compute; discriminate|].
  split; [exact Hu|]. split; [reflexivity|].
  split; [apply lookup_insert_eq|].
  split; [|exact Hidem].
  rewrite lookup_insert_ne by (cbn; lia). vm_compute. reflexivity.
Defined.

Lemma clean_skips_missing_bound_witness :
  (c_start_time {| c_pk := None; c_start_time := None;
                   c_end_time := Some 5%Z |} = None
   \/ c_end_time {| c_pk := None; c_start_time := None;
                    c_end_time := Some 5%Z |} = None)
  /\ clean {| c_pk := None; c_start_time := None; c_end_time := Some 5%Z |} 20
     = Returns tt.
Proof.
  assert (c_start_time {| c_pk := None; c_start_time := None;
                          c_end_time := Some 5%Z |} = None
          \/ c_end_time {| c_pk := None; c_start_time := None;
                           c_end_time := Some 5%Z |} = None) as H
    by (left; reflexivity).
  split; [exact H|].
  exact (clean_skips_missing_bound _ 20 H).
Defined.

Lemma toggle_mailing_active_stores_nothing_witness :
  can_manage_users Scenario.manager = true
  /\ mailings Scenario.world !! 1%Z = Some Scenario.campaign
  /\ Views.toggle_mailing_active
       {| Views.user := Some Scenario.manager |} 1 Scenario.world
     = (Views.respond
          [(Views.success, "Рассылка успешно деактивирована.")]
          (Views.redirect (Views.mailing_detail 1)), Scenario.world).
Proof.
  assert (can_manage_users Scenario.manager = true) as H1 by reflexivity.
  assert (mailings Scenario.world !! 1%Z = Some Scenario.campaign) as H2
    by (vm_compute; reflexivity).
  split; [exact H1|]. split; [exact H2|].
  exact (toggle_mailing_active_stores_nothing Scenario.manager 1
           Scenario.campaign Scenario.world H1 H2).
Defined.

Lemma no_recipients_is_nothing_to_do_witness :
  (mailings Scenario.world !! 2%Z = Some Scenario.empty_campaign
   /\ recipients Scenario.empty_campaign = []
   /\ can_send (from_db 2 Scenario.empty_campaign)
        (Scenario.clock (clock_reads Scenario.world)) = true
   /\ Views.owner_differs (from_db 2 Scenario.empty_campaign)
        Scenario.owner_user
      && negb (can_view_all_mailings Scenario.owner_user) = false)
  /\ (Views.send_mailing Scenario.clock Scenario.transport
        Scenario.from_address
        {| Views.user := Some Scenario.owner_user |} 2 Scenario.world).1
     = Views.respond [(Views.warning, "У рассылки нет получателей!")]
         (Views.redirect (Views.mailing_detail 2))
  /\ (SendMailings.handle Scenario.clock Scenario.transport
        Scenario.from_address 2 Scenario.world).1
     = ([(SendMailings.WARNING, "У рассылки нет получателей!")], None).
Proof.
  assert (mailings Scenario.world !! 2%Z = Some Scenario.empty_campaign)
    as H1 by (vm_compute; reflexivity).
  assert (recipients Scenario.empty_campaign = []) as H2 by reflexivity.
  assert (can_send (from_db 2 Scenario.empty_campaign)
            (Scenario.clock (clock_reads Scenario.world)) = true)
    as H3 by reflexivity.
  assert (Views.owner_differs (from_db 2 Scenario.empty_campaign)
            Scenario.owner_user
          && negb (can_view_all_mailings Scenario.owner_user) = false)
    as H4 by reflexivity.
  split; [exact (conj H1 (conj H2 (conj H3 H4)))|].
  destruct (no_recipients_is_nothing_to_do Scenario.clock Scenario.transport
              Scenario.from_address 2 Scenario.empty_campaign
              Scenario.world H1 H2)
    as (_ & _ & Hgate).
  destruct (Hgate H3) as [Hweb Hcmd].
  exact (conj (Hweb Scenario.owner_user H4) Hcmd).
Defined.

Lemma execute_records_every_recipient_witness :
  (mailings Scenario.world !! 1%Z = Some Scenario.campaign
   /\ Views.owner_differs (from_db 1 Scenario.campaign) Scenario.owner_user
      && negb (can_view_all_mailings Scenario.owner_user) = false
   /\ can_send (from_db 1 Scenario.campaign)
        (Scenario.clock (clock_reads Scenario.world)) = true
   /\ length (recipients Scenario.campaign) = 2
   /\ 1 <= 2
   /\ count thrown
        (batch_outcomes Scenario.transport Scenario.from_address
           (mail_calls Scenario.world) (from_db 1 Scenario.campaign)
           (recipients Scenario.campaign)) = 1)
  /\ delivered_batch Scenario.transport Scenario.from_address
       (from_db 1 Scenario.campaign) (recipients Scenario.campaign) 2 1
       Scenario.world
       (Views.send_mailing Scenario.clock Scenario.transport
          Scenario.from_address
          {| Views.user := Some Scenario.owner_user |} 1 Scenario.world).2
  /\ delivered_batch Scenario.transport Scenario.from_address
       (from_db 1 Scenario.campaign) (recipients Scenario.campaign) 2 1
       Scenario.world
       (SendMailings.handle Scenario.clock Scenario.transport
          Scenario.from_address 1 Scenario.world).2.
Proof.
  assert (mailings Scenario.world !! 1%Z = Some Scenario.campaign) as H1
    by (vm_compute; reflexivity).
  assert (Views.owner_differs (from_db 1 Scenario.campaign)
            Scenario.owner_user
          && negb (can_view_all_mailings Scenario.owner_user) = false)
    as H2 by reflexivity.
  assert (can_send (from_db 1 Scenario.campaign)
            (Scenario.clock (clock_reads Scenario.world)) = true)
    as H3 by reflexivity.
  assert (length (recipients Scenario.campaign) = 2) as H4 by reflexivity.
  assert (1 <= 2) as H5 by lia.
  assert (count thrown
            (batch_outcomes Scenario.transport Scenario.from_address
               (mail_calls Scenario.world) (from_db 1 Scenario.campaign)
               (recipients Scenario.campaign)) = 1) as H6
    by (vm_compute; reflexivity).
  split; [exact (conj H1 (conj H2 (conj H3 (conj H4 (conj H5 H6)))))|].
  destruct (execute_records_every_recipient Scenario.clock
              Scenario.transport Scenario.from_address Scenario.owner_user
              1 Scenario.campaign Scenario.world 2 1 H1 H2 H3 H4 H5 H6)
    as (_ & Hweb & Hcmd).
  destruct (Views.send_mailing _ _ _ _ _ _) as [resp w1].
  destruct (SendMailings.handle _ _ _ _ _) as [run w2].
  exact (conj (proj1 Hweb) (proj1 Hcmd)).
Defined.

End Worked.

(** * Further properties *)

(** ** More on status and validation *)

Section MoreLifecycle.
Import Models Further.

(** X1.  As the clock advances the computed status never moves back:
    Created, then Started, then Completed, for any window. *)
Theorem new_status_never_moves_back (r : MailingRow) (now1 now2 : Z) :
  (now1 <= now2)%Z ->
  status_rank (new_status r now1) <= status_rank (new_status r now2).
Proof.
  intros Hle. unfold new_status.
  destruct (Z.ltb_spec now1 (start_time r)), (Z.ltb_spec now2 (start_time r)),
    (Z.leb_spec (start_time r) now1), (Z.leb_spec now1 (end_time r)),
    (Z.leb_spec (start_time r) now2), (Z.leb_spec now2 (end_time r));
    simpl; lia.
Qed.

(** X2.  The two hooks of the form taken together accept exactly what
    [Mailing.clean] accepts at the same instant: [clean_start_time]
    returns and the form-wide [clean] returns if and only if the model's
    [clean] returns. *)
Theorem form_hooks_agree_with_model_clean (self : Candidate) (st en now : Z) :
  c_start_time self = Some st ->
  c_end_time self = Some en ->
  accepted (Forms.clean_start_time self (Some st) now)
  && accepted (Forms.clean (Some st) (Some en))
  = accepted (clean self now).
Proof.
  intros Hs He. unfold Forms.clean_start_time, Forms.clean, clean.
  rewrite Hs, He.
  destruct (not_pk self), (st <? now)%Z, (st >=? en)%Z; reflexivity.
Qed.

(** X3.  The bounds of validation.  A new mailing that starts exactly at
    the instant of validation and ends one unit later is accepted by the
    model and by the form hook; an empty window ([end_time = start_time])
    is rejected on [end_time] for new and saved mailings alike; a new
    mailing that starts one unit before the instant of validation is
    rejected on [start_time] by both. *)
Theorem validation_bounds (k : option Z) (st now : Z) :
  let fresh (a b : Z) :=
    {| c_pk := None; c_start_time := Some a; c_end_time := Some b |} in
  clean (fresh now (now + 1)%Z) now = Returns tt
  /\ Forms.clean_start_time (fresh now (now + 1)%Z) (Some now) now
     = Returns (Some now)
  /\ clean {| c_pk := k; c_start_time := Some st; c_end_time := Some st |} now
     = Raise [("end_time", "Дата окончания должна быть позже даты начала.")]
  /\ Forms.clean (Some st) (Some st)
     = Raise [("end_time", "Дата окончания должна быть позже даты начала.")]
  /\ clean (fresh (now - 1)%Z now) now
     = Raise [("start_time", "Дата начала не может быть в прошлом.")]
  /\ Forms.clean_start_time (fresh (now - 1)%Z now) (Some (now - 1)%Z) now
     = Raise "Дата начала не может быть в прошлом.".
Proof.
  intros fresh. unfold clean, Forms.clean, Forms.clean_start_time. simpl.
  assert ((now >=? now + 1)%Z = false) as -> by lia.
  assert ((st >=? st)%Z = true) as -> by lia.
  assert ((now - 1 >=? now)%Z = false) as -> by lia.
  assert ((now - 1 <? now)%Z = true) as -> by lia.
  rewrite Z.ltb_irrefl. repeat split.
Qed.

End MoreLifecycle.

(** ** More on the delivery loop *)

Section MoreDelivery.
Import Users Models Env Observe Further.
Local Open Scope list_scope.

Variable clock : nat -> Z.
Variable send_mail_outcome :
  nat -> string -> string -> string -> list string -> SendOutcome.
Variable DEFAULT_FROM_EMAIL : string.

Abbreviation batch_attempts' :=
  (batch_attempts clock send_mail_outcome DEFAULT_FROM_EMAIL).

Lemma batch_attempts_filled (reads calls : nat) (m : Mailing)
    (rs : list Client) :
  Forall (fun a => mailing a = pk m
                   /\ is_Some (recipient_email a)
                   /\ is_Some (server_response a))
         (batch_attempts' reads calls m rs).
Proof.
  revert reads calls. induction rs as [|c rs IH]; intros; simpl.
  - constructor.
  - constructor; [|apply IH].
    destruct (answer _ _ _ _ _); simpl; eauto.
Qed.

Lemma batch_attempts_emails (reads calls : nat) (m : Mailing)
    (rs : list Client) :
  map recipient_email (batch_attempts' reads calls m rs)
  = map (fun c => Some (email c)) rs.
Proof.
  revert reads calls. induction rs as [|c rs IH]; intros; simpl; [done|].
  rewrite IH. by destruct (answer _ _ _ _ _).
Qed.

Lemma batch_attempts_lookup
    (o : nat -> string -> string -> string -> list string -> SendOutcome)
    (reads calls : nat) (m : Mailing) (rs : list Client) (i : nat)
    (c : Client) :
  rs !! i = Some c ->
  batch_attempts clock o DEFAULT_FROM_EMAIL reads calls m rs !! i
  = Some (attempt_for m (clock (reads + i)) c
            (answer o DEFAULT_FROM_EMAIL (calls + i) m c)).
Proof.
  revert reads calls i. induction rs as [|c' rs IH]; intros reads calls i Hi.
  - done.
  - destruct i as [|i]; simpl in *.
    + injection Hi as ->. by rewrite !Nat.add_0_r.
    + rewrite (IH _ _ _ Hi). by rewrite !Nat.add_succ_r.
Qed.

(** A request that leaves ledger, transport count and mailing table alone
    has delivered nothing. *)
Lemma only_delivered_for_quiet (k : Z) (w w' : World) :
  attempts w' = attempts w ->
  mail_calls w' = mail_calls w ->
  mailings w' = mailings w ->
  only_delivered_for k w w'.
Proof.
  intros Ha Hc Hm. exists []. rewrite Ha, Hc, Hm, app_nil_r. simpl.
  split; [done|]. split; [lia|]. split; [constructor|].
  split; [done|]. split; [|done].
  intros r Hr. exists (status r). by rewrite set_status_same.
Qed.

Lemma only_delivered_for_batch (k : Z) (r : MailingRow) (s : MailingStatus)
    (w w' : World) :
  mailings w !! k = Some r ->
  attempts w' =
    attempts w ++ batch_attempts' (S (clock_reads w)) (mail_calls w)
                    (from_db k r) (recipients r) ->
  mail_calls w' = mail_calls w + length (recipients r) ->
  mailings w' = <[k := set_status s r]> (mailings w) ->
  only_delivered_for k w w'.
Proof.
  intros Hr Ha Hc Hm. eexists. split; [exact Ha|].
  split; [by rewrite batch_attempts_length|].
  split; [apply (batch_attempts_filled _ _ (from_db k r))|].
  rewrite Hm. split; [intros k' Hk'; by rewrite lookup_insert_ne|].
  split.
  - intros r' Hr'. rewrite Hr in Hr'. injection Hr' as <-.
    exists s. apply lookup_insert_eq.
  - intros Hnone. congruence.
Qed.

(** The three ways in which the command ends, in terms of its gates. *)
Lemma handle_cases (k : Z) (w : World) :
  (exists r, mailings w !! k = Some r
     /\ can_send (from_db k r) (clock (clock_reads w)) = true
     /\ recipients r <> [])
  \/ ((~ exists r, mailings w !! k = Some r
          /\ can_send (from_db k r) (clock (clock_reads w)) = true
          /\ recipients r <> [])
      /\ let w' := (SendMailings.handle clock send_mail_outcome
                      DEFAULT_FROM_EMAIL k w).2 in
         attempts w' = attempts w /\ mail_calls w' = mail_calls w
         /\ mailings w' = mailings w /\ trace w' = trace w).
Proof.
  destruct (mailings w !! k) as [r|] eqn:Hr.
  2:{ right. split; [intros (r & ? & _); congruence|].
      unfold SendMailings.handle. by rewrite Hr. }
  destruct (can_send (from_db k r) (clock (clock_reads w))) eqn:Hs.
  2:{ right. split; [intros (r' & ? & ? & _); congruence|].
      unfold SendMailings.handle. rewrite Hr.
      unfold SendMailings.handle_body, call_can_send, timezone_now.
      by rewrite Hs. }
  destruct (recipients r) as [|c rs] eqn:Hrs.
  - right. split; [intros (r' & ? & _ & ?); congruence|].
    unfold SendMailings.handle. rewrite Hr.
    unfold SendMailings.handle_body, call_can_send, timezone_now.
    rewrite Hs. cbn [negb recipients row from_db]. by rewrite Hrs.
  - left. exists r. by rewrite Hrs.
Qed.

(** The same for the manual send, whose gates include the caller. *)
Lemma send_mailing_cases (request : Views.Request) (k : Z) (w : World) :
  (exists u r, Views.user request = Some u
     /\ mailings w !! k = Some r
     /\ Views.owner_differs (from_db k r) u
        && negb (can_view_all_mailings u) = false
     /\ can_send (from_db k r) (clock (clock_reads w)) = true
     /\ recipients r <> [])
  \/ ((~ exists u r, Views.user request = Some u
          /\ mailings w !! k = Some r
          /\ Views.owner_differs (from_db k r) u
             && negb (can_view_all_mailings u) = false
          /\ can_send (from_db k r) (clock (clock_reads w)) = true
          /\ recipients r <> [])
      /\ let w' := (Views.send_mailing clock send_mail_outcome
                      DEFAULT_FROM_EMAIL request k w).2 in
         attempts w' = attempts w /\ mail_calls w' = mail_calls w
         /\ mailings w' = mailings w /\ trace w' = trace w).
Proof.
  destruct request as [[u|]].
  2:{ right. split; [intros (u & r & ? & _); discriminate|]. done. }
  unfold Views.send_mailing. cbn [Views.user].
  destruct (mailings w !! k) as [r|] eqn:Hr.
  2:{ right. split; [intros (u' & r & _ & ? & _); congruence|]. done. }
  unfold Views.send_mailing_body.
  destruct (Views.owner_differs (from_db k r) u
            && negb (can_view_all_mailings u)) eqn:Hacc.
  { right. split; [|done].
    intros (u' & r' & Hu & Hr' & Hacc' & _).
    injection Hu as <-. injection Hr' as <-. congruence. }
  cbn [getattr_is_active dict_is_active from_db truthy negb].
  unfold call_can_send, timezone_now.
  destruct (can_send (from_db k r) (clock (clock_reads w))) eqn:Hs.
  2:{ right. split; [|done].
      intros (u' & r' & _ & Hr' & _ & Hs' & _).
      injection Hr' as <-. cbn [from_db] in *. congruence. }
  cbn [negb recipients row from_db].
  destruct (recipients r) as [|c rs] eqn:Hrs.
  - right. split; [|done].
    intros (u' & r' & _ & Hr' & _ & _ & Hne). injection Hr' as <-. done.
  - left. exists u, r. by rewrite Hrs.
Qed.

(** X4.  The manual send is all or nothing.  It calls [send_mail] at all
    exactly when the caller is logged in, the mailing exists, the caller
    owns it or may view all mailings, the first clock reading lies in the
    window and there is a recipient; in that case it calls it once per
    recipient, and otherwise ledger, mailing table and trace are left as
    they were. *)
Theorem send_mailing_all_or_nothing (request : Views.Request) (k : Z)
    (w : World) :
  let w' := (Views.send_mailing clock send_mail_outcome DEFAULT_FROM_EMAIL
               request k w).2 in
  let gates :=
    exists u r, Views.user request = Some u
      /\ mailings w !! k = Some r
      /\ Views.owner_differs (from_db k r) u
         && negb (can_view_all_mailings u) = false
      /\ can_send (from_db k r) (clock (clock_reads w)) = true
      /\ recipients r <> [] in
  (mail_calls w' <> mail_calls w <-> gates)
  /\ (forall r, gates -> mailings w !! k = Some r ->
        mail_calls w' = mail_calls w + length (recipients r)
        /\ length (attempts w') = length (attempts w) + length (recipients r))
  /\ (~ gates ->
      attempts w' = attempts w /\ mailings w' = mailings w
      /\ trace w' = trace w).
Proof.
  intros w' gates. subst w'.
  destruct (send_mailing_cases request k w)
    as [(u & r & Hu & Hr & Hacc & Hs & Hne) | [Hno Hq]].
  - assert (gates) as Hg by (exists u, r; done).
    destruct request as [ru]. cbn [Views.user] in Hu. subst ru.
    rewrite (send_mailing_effect clock send_mail_outcome DEFAULT_FROM_EMAIL
               u k r w Hr Hacc Hs Hne).
    cbn [snd mail_calls attempts].
    assert (length (recipients r) <> 0) as Hlen by (by destruct (recipients r)).
    split; [split; [done | intros _; lia]|].
    split; [|done].
    intros r' _ Hr'. rewrite Hr in Hr'. injection Hr' as <-.
    split; [done|]. by rewrite length_app, batch_attempts_length.
  - cbv zeta in Hq. destruct Hq as (Ha & Hc & Hm & Ht).
    split; [split; [intros; congruence | intros; done]|].
    split; [intros; done|]. done.
Qed.

(** X5.  The command is all or nothing as well, with the caller out of
    the picture: it calls [send_mail] exactly when the mailing exists, the
    first clock reading lies in the window and there is a recipient, then
    once per recipient, and otherwise changes nothing. *)
Theorem handle_all_or_nothing (k : Z) (w : World) :
  let w' := (SendMailings.handle clock send_mail_outcome DEFAULT_FROM_EMAIL
               k w).2 in
  let gates :=
    exists r, mailings w !! k = Some r
      /\ can_send (from_db k r) (clock (clock_reads w)) = true
      /\ recipients r <> [] in
  (mail_calls w' <> mail_calls w <-> gates)
  /\ (forall r, gates -> mailings w !! k = Some r ->
        mail_calls w' = mail_calls w + length (recipients r)
        /\ length (attempts w') = length (attempts w) + length (recipients r))
  /\ (~ gates ->
      attempts w' = attempts w /\ mailings w' = mailings w
      /\ trace w' = trace w).
Proof.
  intros w' gates. subst w'.
  destruct (handle_cases k w) as [(r & Hr & Hs & Hne) | [Hno Hq]].
  - assert (gates) as Hg by (exists r; done).
    rewrite (handle_effect clock send_mail_outcome DEFAULT_FROM_EMAIL
               k r w Hr Hs Hne).
    cbn [snd mail_calls attempts].
    assert (length (recipients r) <> 0) as Hlen by (by destruct (recipients r)).
    split; [split; [done | intros _; lia]|].
    split; [|done].
    intros r' _ Hr'. rewrite Hr in Hr'. injection Hr' as <-.
    split; [done|]. by rewrite length_app, batch_attempts_length.
  - cbv zeta in Hq. destruct Hq as (Ha & Hc & Hm & Ht).
    split; [split; [intros; congruence | intros; done]|].
    split; [intros; done|]. done.
Qed.

(** X6.  Whatever the request, neither entry point rewrites history: the
    ledger only grows, by one row per [send_mail] call, each new row
    belongs to the mailing asked for and carries an address and a response
    text; no mailing is added or removed, other mailings keep their rows
    and the mailing asked for changes in its status at most. *)
Theorem entry_points_only_deliver (request : Views.Request) (k : Z)
    (w : World) :
  only_delivered_for k w
    (Views.send_mailing clock send_mail_outcome DEFAULT_FROM_EMAIL
       request k w).2
  /\ only_delivered_for k w
       (SendMailings.handle clock send_mail_outcome DEFAULT_FROM_EMAIL k w).2.
Proof.
  split.
  - destruct (send_mailing_cases request k w)
      as [(u & r & Hu & Hr & Hacc & Hs & Hne) | [_ Hq]].
    + destruct request as [ru]. cbn [Views.user] in Hu. subst ru.
      rewrite (send_mailing_effect clock send_mail_outcome DEFAULT_FROM_EMAIL
                 u k r w Hr Hacc Hs Hne).
      by eapply only_delivered_for_batch.
    + cbv zeta in Hq. destruct Hq as (Ha & Hc & Hm & _).
      by apply only_delivered_for_quiet.
  - destruct (handle_cases k w) as [(r & Hr & Hs & Hne) | [_ Hq]].
    + rewrite (handle_effect clock send_mail_outcome DEFAULT_FROM_EMAIL
                 k r w Hr Hs Hne).
      by eapply only_delivered_for_batch.
    + cbv zeta in Hq. destruct Hq as (Ha & Hc & Hm & _).
      by apply only_delivered_for_quiet.
Qed.

(** X7.  Nothing remembers that a mailing was sent.  When the manual send
    runs twice on the same mailing and the window is still open at the
    second run, every recipient is mailed twice and gets two ledger rows:
    the second run appends a second batch after the first. *)
Theorem send_mailing_twice_sends_twice (u : User) (k : Z) (r : MailingRow)
    (w : World) :
  mailings w !! k = Some r ->
  Views.owner_differs (from_db k r) u && negb (can_view_all_mailings u)
    = false ->
  recipients r <> [] ->
  can_send (from_db k r) (clock (clock_reads w)) = true ->
  can_send (from_db k r) (clock (clock_reads w + length (recipients r) + 2))
    = true ->
  let w1 := (Views.send_mailing clock send_mail_outcome DEFAULT_FROM_EMAIL
               {| Views.user := Some u |} k w).2 in
  let w2 := (Views.send_mailing clock send_mail_outcome DEFAULT_FROM_EMAIL
               {| Views.user := Some u |} k w1).2 in
  exists b1 b2 : list MailingAttempt,
    attempts w1 = attempts w ++ b1
    /\ attempts w2 = attempts w ++ b1 ++ b2
    /\ map recipient_email b1 = map (fun c => Some (email c)) (recipients r)
    /\ map recipient_email b2 = map (fun c => Some (email c)) (recipients r)
    /\ mail_calls w2 = mail_calls w + 2 * length (recipients r).
Proof.
  intros Hr Hacc Hne Hs1 Hs2 w1 w2. subst w2 w1.
  rewrite (send_mailing_effect clock send_mail_outcome DEFAULT_FROM_EMAIL
             u k r w Hr Hacc Hs1 Hne).
  cbn [snd].
  set (r1 := set_status _ r).
  set (w1 := {| mailings := _ |}).
  assert (mailings w1 !! k = Some r1) as Hr1 by apply lookup_insert_eq.
  assert (recipients r1 <> []) as Hne1 by exact Hne.
  assert (can_send (from_db k r1) (clock (clock_reads w1)) = true) as Hs.
  { cbn [clock_reads w1]. unfold can_send in *. cbn [from_db row] in *.
    replace (S (S (clock_reads w) + length (recipients r)))
      with (clock_reads w + length (recipients r) + 2) by lia.
    exact Hs2. }
  rewrite (send_mailing_effect clock send_mail_outcome DEFAULT_FROM_EMAIL
             u k r1 w1 Hr1 Hacc Hs Hne1).
  cbn [snd attempts mail_calls w1].
  eexists _, _. split; [reflexivity|].
  split; [by rewrite <- app_assoc|].
  split; [apply batch_attempts_emails|].
  split; [apply (batch_attempts_emails _ _ (from_db k r1))|].
  cbn [recipients r1 set_status]. lia.
Qed.

(** X8.  Each recipient's row is that recipient's own: the row written for
    the recipient at position [i] of the loop is fixed by the transport's
    answer to call [i] alone (Failed with its text when it raised, Success
    with the fixed text when it returned), so two transports that agree on
    that one call leave the same row there, whatever they answer to the
    other recipients. *)
Theorem send_loop_rows_are_independent
    (other_outcome :
       nat -> string -> string -> string -> list string -> SendOutcome)
    (m : Mailing) (rs : list Client) (s f : nat) (w : World)
    (i : nat) (c : Client) :
  rs !! i = Some c ->
  send_mail_outcome (mail_calls w + i) (subject (message m))
    (body (message m)) DEFAULT_FROM_EMAIL [email c]
  = other_outcome (mail_calls w + i) (subject (message m))
      (body (message m)) DEFAULT_FROM_EMAIL [email c] ->
  let after o := (Views.send_loop clock o DEFAULT_FROM_EMAIL m rs s f w).2 in
  attempts (after send_mail_outcome) !! (length (attempts w) + i)
  = Some (attempt_for m (clock (clock_reads w + i)) c
            (send_mail_outcome (mail_calls w + i) (subject (message m))
               (body (message m)) DEFAULT_FROM_EMAIL [email c]))
  /\ attempts (after other_outcome) !! (length (attempts w) + i)
     = attempts (after send_mail_outcome) !! (length (attempts w) + i).
Proof.
  intros Hi Hagree after. subst after. cbv beta.
  rewrite !send_loop_effect. cbn [snd attempts].
  rewrite !lookup_app_r by lia.
  replace (length (attempts w) + i - length (attempts w)) with i by lia.
  rewrite (batch_attempts_lookup send_mail_outcome _ _ _ _ _ _ Hi).
  rewrite (batch_attempts_lookup other_outcome _ _ _ _ _ _ Hi).
  unfold answer. rewrite <- Hagree. done.
Qed.

End MoreDelivery.

(** ** Who may see and touch what (the access mixins) *)

Section MoreAccess.
Import Users Models Env Access.
Local Open Scope list_scope.

Lemma get_queryset_lookup {A : Type} (owner_of : A -> option Z)
    (u : User) (table : gmap Z A) (k : Z) (a : A) :
  get_queryset owner_of u table !! k = Some a
  <-> table !! k = Some a
      /\ (can_view_all_mailings u = true \/ owner_of a = Some (user_id u)).
Proof.
  unfold get_queryset.
  destruct (can_view_all_mailings u) eqn:Hv.
  - split; [intros H; split; [done|by left] | by intros [H _]].
  - rewrite map_lookup_filter_Some. cbn. split.
    + intros [H1 H2]. split; [done|by right].
    + intros [H1 [H2|H2]]; [done|]. by split.
Qed.

(** X9.  The list mixin scopes by owner: a user who may not view all
    mailings is shown exactly the rows they own, so never a row of another
    owner and never one without owner, while a user who may view all is
    shown the whole table. *)
Theorem get_queryset_scopes_by_owner {A : Type} (owner_of : A -> option Z)
    (u : User) (table : gmap Z A) (k : Z) (a : A) :
  (get_queryset owner_of u table !! k = Some a
   <-> table !! k = Some a
       /\ (can_view_all_mailings u = true \/ owner_of a = Some (user_id u)))
  /\ (can_view_all_mailings u = false -> owner_of a = None ->
      get_queryset owner_of u table !! k <> Some a)
  /\ (can_view_all_mailings u = true -> get_queryset owner_of u table = table).
Proof.
  split; [apply get_queryset_lookup|]. split.
  - intros Hv Hnone Hq. apply get_queryset_lookup in Hq as [_ [Hq|Hq]];
      congruence.
  - intros Hv. unfold get_queryset. by rewrite Hv.
Qed.

(** X10.  The edit mixin hands a request on exactly when the caller owns
    the object, or may view all and is not a manager (by role) trying an
    unsafe method.  So an outsider is always turned away, an object
    without owner is out of reach for plain users, and a manager cannot
    modify what belongs to somebody else even when the account is a
    superuser, because the role is what is asked. *)
Theorem dispatch_hands_on_iff {R : Type} (get_success_url : option R)
    (u : User) (obj_owner : option Z) (method : string) :
  (dispatch get_success_url u obj_owner method = handed_on
   <-> owned_by obj_owner u = true
       \/ (can_view_all_mailings u = true
           /\ ~ (is_manager u = true /\ unsafe_method method = true)))
  /\ (owned_by obj_owner u = false -> can_view_all_mailings u = false ->
      dispatch get_success_url u obj_owner method
      = turned_away (Views.error, "У вас нет прав доступа к этому объекту.")
          home_page)
  /\ (is_manager u = true -> owned_by obj_owner u = false ->
      unsafe_method method = true ->
      dispatch get_success_url u obj_owner method <> handed_on).
Proof.
  unfold dispatch.
  destruct (owned_by obj_owner u) eqn:Ho,
    (can_view_all_mailings u) eqn:Hv,
    (is_manager u) eqn:Hm,
    (unsafe_method method) eqn:Hu,
    get_success_url as [r|];
    cbn; repeat split; intros; try done; try tauto; try discriminate;
    try (intuition discriminate); intuition congruence.
Qed.

Section ListAndDetail.
Variable clock : nat -> Z.
Variable fetch : gmap Z MailingRow -> list (Z * MailingRow).
Hypothesis fetch_complete : forall t, fetch t ≡ₚ map_to_list t.

(** The refresh loop over rows that are in the table under distinct
    keys. *)
Lemma update_each_effect (l : list (Z * MailingRow)) (w : World) :
  NoDup l.*1 ->
  (forall k r, (k, r) ∈ l -> mailings w !! k = Some r) ->
  exists (shown : list Mailing) (w' : World),
    update_each clock ((fun kr => from_db kr.1 kr.2) <$> l) w
    = (Returns shown, w')
    /\ length shown = length l
    /\ attempts w' = attempts w
    /\ mail_calls w' = mail_calls w
    /\ (forall i k r, l !! i = Some (k, r) ->
          shown !! i
          = Some (from_db k (set_status
                               (new_status r (clock (clock_reads w + i))) r))
          /\ mailings w' !! k
             = Some (set_status (new_status r (clock (clock_reads w + i))) r))
    /\ (forall k, k ∉ l.*1 -> mailings w' !! k = mailings w !! k).
Proof.
  revert w. induction l as [|[k r] l IH]; intros w Hnd Hin.
  - exists [], w. cbn. repeat split; try done.
  - apply NoDup_cons in Hnd as [Hk Hnd]. cbn [fmap list_fmap fst] in Hk.
    assert (mailings w !! k = Some r) as Hr by (apply Hin; left).
    cbn [fmap list_fmap update_each fst snd].
    rewrite (call_update_status_loaded clock k r w Hr).
    set (w1 := {| mailings := _ |}).
    destruct (IH w1 Hnd) as (shown & w' & Hrun & Hlen & Ha & Hc & Hat & Hoth).
    { intros k' r' Hin'. cbn [mailings w1].
      rewrite lookup_insert_ne.
      - apply Hin. by right.
      - intros <-. apply Hk. apply list_elem_of_fmap. by exists (k, r'). }
    change (list_fmap _ _ (fun kr => from_db kr.1 kr.2) l)
      with ((fun kr : Z * MailingRow => from_db kr.1 kr.2) <$> l).
    rewrite Hrun. eexists _, w'. split; [reflexivity|].
    split; [cbn; by rewrite Hlen|]. split; [done|]. split; [done|].
    split.
    + intros [|i] k' r' Hi; cbn in Hi.
      * injection Hi as <- <-. rewrite Nat.add_0_r. split; [done|].
        rewrite (Hoth k Hk). apply lookup_insert_eq.
      * destruct (Hat i k' r' Hi) as [H1 H2].
        cbn [clock_reads w1] in H1, H2.
        replace (clock_reads w + S i) with (S (clock_reads w) + i) by lia.
        done.
    + intros k' Hk'. cbn [fmap list_fmap fst] in Hk'.
      apply not_elem_of_cons in Hk' as [Hne Hk'].
      rewrite (Hoth k' Hk'). cbn [mailings w1]. by rewrite lookup_insert_ne.
Qed.

(** X11.  Opening the mailing list refreshes what it shows and nothing
    else.  Every mailing the mixin lets the user see has its status
    recomputed at its own clock reading and stored, and the object handed
    to the page carries that stored status; mailings the user may not see
    keep their rows; no mail is sent and the ledger is untouched. *)
Theorem mailing_list_refreshes_what_it_shows (u : User) (w : World) :
  exists (shown : list Mailing) (w' : World),
    MailingListView_get_queryset clock fetch u w = (Returns shown, w')
    /\ attempts w' = attempts w
    /\ mail_calls w' = mail_calls w
    /\ Forall (fun m => mailings w' !! pk m = Some (row m)
                        /\ dict_is_active m = None) shown
    /\ (forall k r, mailings w !! k = Some r ->
          (can_view_all_mailings u = true \/ owner r = Some (user_id u)) ->
          exists i, i < length shown
            /\ shown !! i
               = Some (from_db k
                         (set_status
                            (new_status r (clock (clock_reads w + i))) r))
            /\ mailings w' !! k
               = Some (set_status
                         (new_status r (clock (clock_reads w + i))) r))
    /\ (forall k r, mailings w !! k = Some r ->
          ~ (can_view_all_mailings u = true \/ owner r = Some (user_id u)) ->
          mailings w' !! k = Some r).
Proof.
  unfold MailingListView_get_queryset.
  set (q := get_queryset owner u (mailings w)).
  assert (forall k r, (k, r) ∈ fetch q <-> q !! k = Some r) as Hmem.
  { intros k r. rewrite (fetch_complete q). apply elem_of_map_to_list. }
  assert (forall k r, q !! k = Some r
          <-> mailings w !! k = Some r
              /\ (can_view_all_mailings u = true
                  \/ owner r = Some (user_id u))) as Hq.
  { intros k r. apply (get_queryset_lookup owner u). }
  assert (NoDup (fetch q).*1) as Hnd.
  { rewrite (fetch_complete q). apply NoDup_fst_map_to_list. }
  destruct (update_each_effect (fetch q) w Hnd)
    as (shown & w' & Hrun & Hlen & Ha & Hc & Hat & Hoth).
  { intros k r Hin. apply Hmem, Hq in Hin. tauto. }
  exists shown, w'. split; [exact Hrun|]. split; [done|]. split; [done|].
  split; [|split].
  - apply Forall_lookup. intros i m Hi.
    assert (i < length (fetch q)) as Hlt.
    { rewrite <- Hlen. by eapply lookup_lt_Some. }
    destruct (lookup_lt_is_Some_2 _ _ Hlt) as [[k r] Hkr].
    destruct (Hat i k r Hkr) as [H1 H2].
    rewrite Hi in H1. injection H1 as ->. by cbn.
  - intros k r Hr Hvis.
    assert ((k, r) ∈ fetch q) as Hin by (apply Hmem, Hq; done).
    apply list_elem_of_lookup in Hin as [i Hi].
    exists i. destruct (Hat i k r Hi) as [H1 H2].
    split; [|done]. rewrite Hlen. by eapply lookup_lt_Some.
  - intros k r Hr Hvis. rewrite Hoth; [done|].
    intros Hin. apply list_elem_of_fmap in Hin as ([k' r'] & -> & Hin).
    apply Hmem, Hq in Hin as [Hr' Hvis']. cbn in Hr.
    rewrite Hr in Hr'. injection Hr' as <-. done.
Qed.

End ListAndDetail.

End MoreAccess.

(** ** Reading a mailing, toggling it, blocking an account *)

Section MoreViews.
Import Users Models Env Access.
Local Open Scope list_scope.

Variable clock : nat -> Z.

(** Started is the status of exactly the instants at which a send is
    allowed. *)
Lemma started_is_can_send (self : Mailing) (now : Z) :
  status_eqb (new_status self now) STATUS_STARTED = can_send self now.
Proof.
  unfold new_status, can_send.
  destruct (now <? start_time self)%Z eqn:E; [|by destruct (_ && _)].
  apply Z.ltb_lt in E.
  assert ((start_time self <=? now)%Z = false) as -> by (apply Z.leb_gt; lia).
  reflexivity.
Qed.

(** X12.  The method [is_active] is [update_status] followed by the window
    test: it has the effect of [update_status], fails when that fails, and
    otherwise answers what [can_send] answers at the same instant,
    whatever status was stored before. *)
Theorem is_active_is_refresh_then_can_send (now : Z) (self : Mailing)
    (table : gmap Z MailingRow) :
  Models.is_active now self table
  = match update_status now self table with
    | Returns (self', table') =>
        Returns (can_send self now, (self', table'))
    | Raise e => Raise e
    end.
Proof.
  unfold Models.is_active.
  destruct (update_status now self table) as [[self' table']|e] eqn:Hu;
    [|done].
  rewrite (update_status_result_status _ _ _ _ _ Hu).
  by rewrite started_is_can_send.
Qed.

(** X13.  The detail view refreshes before it decides.  For a stored
    mailing the status is recomputed at the first clock reading and
    stored, and only then is the caller judged, on the mailing's owner and
    the request method: a caller who is turned away has still caused the
    write.  Other mailings, the ledger and the transport are left alone,
    and a missing key gives the not-found outcome with the world
    untouched. *)
Theorem detail_view_refreshes_before_deciding (u : User) (k : Z)
    (method : string) (w : World) :
  (forall r, mailings w !! k = Some r ->
     exists w',
       MailingDetailView_dispatch clock u k method w
       = (decided (dispatch None u (owner r) method), w')
       /\ mailings w'
          = <[k := set_status (new_status r (clock (clock_reads w))) r]>
              (mailings w)
       /\ attempts w' = attempts w
       /\ mail_calls w' = mail_calls w)
  /\ (mailings w !! k = None ->
      MailingDetailView_dispatch clock u k method w = (not_found, w)).
Proof.
  unfold MailingDetailView_dispatch, MailingDetailView_get_object. split.
  - intros r Hr. rewrite Hr.
    rewrite (call_update_status_loaded clock k r w Hr).
    eexists. split; [reflexivity|]. done.
  - intros Hr. by rewrite Hr.
Qed.

(** X14.  [toggle_mailing_active] is inert: for every caller and every
    key the world after the request is the world before it, and the
    message that a mailing was activated is never produced. *)
Theorem toggle_mailing_active_is_inert (request : Views.Request) (k : Z)
    (w : World) :
  (Views.toggle_mailing_active request k w).2 = w
  /\ (Views.success, "Рассылка успешно активирована.")
     ∉ Views.flashes (Views.toggle_mailing_active request k w).1.
Proof.
  unfold Views.toggle_mailing_active.
  destruct (Views.user request) as [u|]; [|split; [done|apply not_elem_of_nil]].
  destruct (can_manage_users u); cbn [negb].
  2:{ split; [done|]. cbn. rewrite elem_of_cons, elem_of_nil.
      intuition discriminate. }
  destruct (mailings w !! k) as [r|] eqn:Hr;
    [|split; [done|apply not_elem_of_nil]].
  cbn [getattr_is_active dict_is_active from_db truthy negb assign_is_active].
  split.
  - cbn [snd]. change {| pk := k; row := r; dict_is_active := Some false |}
      with (assign_is_active false (from_db k r)).
    rewrite (save_after_assign_is_active k r false _ Hr). by destruct w.
  - cbn. rewrite elem_of_cons, elem_of_nil. intuition discriminate.
Qed.

End MoreViews.

Section MoreAccounts.
Import Users Accounts.
Local Open Scope list_scope.

Variable token_urlsafe : string.

(** X15.  The guards of [toggle_user_block].  The request changes the user
    table only when the caller is logged in and may manage users, the
    target exists, is somebody else and is not a superuser, the method is
    POST and the form is valid: nobody blocks themselves, a superuser is
    never blocked, and a GET changes nothing.  Whatever happens, every
    other account keeps its row and the target keeps its name, role and
    superuser flag. *)
Theorem toggle_user_block_guards (request_user : option User)
    (method : string) (cleaned : option (bool * option string)) (pk : Z)
    (table : gmap Z Account) :
  let table' :=
    (toggle_user_block token_urlsafe request_user method cleaned pk table).2 in
  (table' <> table ->
   exists u target,
     request_user = Some u
     /\ can_manage_users u = true
     /\ pk <> user_id u
     /\ table !! pk = Some target
     /\ account_is_superuser target = false
     /\ method = "POST"
     /\ is_Some cleaned)
  /\ (forall k, k <> pk -> table' !! k = table !! k)
  /\ (forall target, table !! pk = Some target ->
        exists target', table' !! pk = Some target'
          /\ username target' = username target
          /\ account_role target' = account_role target
          /\ account_is_superuser target' = account_is_superuser target).
Proof.
  intros table'. subst table'. unfold toggle_user_block.
  destruct request_user as [u|]; [|cbn; repeat split; eauto; done].
  destruct (can_manage_users u) eqn:Hu; cbn [negb];
    [|cbn; repeat split; eauto; done].
  destruct (table !! pk) as [target|] eqn:Ht;
    [|cbn; repeat split; eauto; try done; congruence].
  destruct (Z.eqb_spec pk (user_id u)) as [Hself|Hother];
    [cbn; repeat split; eauto; try done;
     intros t [= <-]; eauto|].
  destruct (account_is_superuser target) eqn:Hsu;
    [cbn; repeat split; eauto; try done; intros t [= <-]; eauto|].
  destruct (String.eqb_spec method "POST") as [Hpost|Hget];
    [|cbn; repeat split; eauto; try done; intros t [= <-]; eauto].
  destruct cleaned as [[blocked reason]|];
    [|cbn; repeat split; eauto; try done; intros t [= <-]; eauto].
  cbn [snd]. unfold save. split; [|split].
  - intros _. exists u, target. repeat split; eauto.
  - intros k Hk. by rewrite lookup_insert_ne.
  - intros t [= <-]. rewrite lookup_insert_eq. eexists. split; [done|].
    by destruct (no_token _).
Qed.

(** X16.  When the guards pass, the posted values are what is stored: the
    target's [is_blocked] and [blocked_reason] become the cleaned values,
    an existing verification token is kept and a missing one is generated
    by [User.save], and the caller is told "blocked" or "unblocked"
    according to the new flag and sent to the account's page. *)
Theorem toggle_user_block_applies_form (u : User) (pk : Z) (target : Account)
    (blocked : bool) (reason : option string) (table : gmap Z Account) :
  can_manage_users u = true ->
  pk <> user_id u ->
  table !! pk = Some target ->
  account_is_superuser target = false ->
  toggle_user_block token_urlsafe (Some u) "POST" (Some (blocked, reason))
    pk table
  = ({| flashes :=
          [(Views.success,
            "Пользователь " +:+ username target +:+ " успешно "
            +:+ (if blocked then "заблокирован" else "разблокирован")
            +:+ ".")];
        page := to_user_detail pk |},
     <[pk := {| username := username target;
                account_role := account_role target;
                account_is_superuser := false;
                is_blocked := blocked;
                blocked_reason := reason;
                email_verification_token :=
                  if no_token target then Some token_urlsafe
                  else email_verification_token target |}]> table).
Proof.
  intros Hu Hother Ht Hsu. unfold toggle_user_block.
  rewrite Hu, Ht, Hsu. cbn [negb].
  destruct (Z.eqb_spec pk (user_id u)); [done|].
  cbn. unfold save, no_token. cbn.
  by destruct (email_verification_token target) as [t|];
    [destruct (String.eqb t "")|].
Qed.

End MoreAccounts.

Section MoreLogin.
Import Users Accounts Login.
Local Open Scope list_scope.

Variable token_urlsafe : string.

(** X17.  A blocked account does not get in.  [login_view] starts a
    session only for a POST with a valid form whose credentials match an
    account that is not blocked; for a blocked account it answers with the
    error that names the reason, or the default text when no reason was
    given. *)
Theorem login_view_keeps_blocked_out (is_authenticated : bool)
    (method : string) (form_is_valid : bool)
    (authenticate : option (Z * Account)) (next_param : option string) :
  (forall k fl n,
     login_view is_authenticated method form_is_valid authenticate next_param
     = logged_in k fl n ->
     is_authenticated = false /\ method = "POST" /\ form_is_valid = true
     /\ exists user, authenticate = Some (k, user) /\ is_blocked user = false)
  /\ (forall k user,
        is_authenticated = false -> method = "POST" ->
        form_is_valid = true -> authenticate = Some (k, user) ->
        is_blocked user = true ->
        login_view is_authenticated method form_is_valid authenticate
          next_param
        = login_page
            [(Views.error,
              "Ваш аккаунт заблокирован. Причина: "
              +:+ reason_or_default user)]).
Proof.
  unfold login_view. split.
  - intros k fl n.
    destruct is_authenticated; [discriminate|].
    destruct (String.eqb_spec method "POST"); [|discriminate].
    destruct form_is_valid; [|discriminate].
    destruct authenticate as [[k' user]|]; [|discriminate].
    destruct (is_blocked user) eqn:Hb; [discriminate|].
    intros [= <- _ _]. repeat split; eauto.
  - intros k user -> -> -> -> Hb. by rewrite Hb.
Qed.

(** X18.  Blocking works end to end: once a manager has blocked another,
    non-superuser account through [toggle_user_block], a login with that
    account's credentials is refused, and after unblocking it through the
    same view the login goes through. *)
Theorem blocked_through_the_view_cannot_log_in (u : User) (pk : Z)
    (target : Account) (blocked : bool) (reason : option string)
    (table : gmap Z Account) (next_param : option string) :
  can_manage_users u = true ->
  pk <> user_id u ->
  table !! pk = Some target ->
  account_is_superuser target = false ->
  let table' :=
    (toggle_user_block token_urlsafe (Some u) "POST"
       (Some (blocked, reason)) pk table).2 in
  exists stored, table' !! pk = Some stored
    /\ forall k fl n,
         login_view false "POST" true (Some (pk, stored)) next_param
         = logged_in k fl n <-> blocked = false
                               /\ k = pk
                               /\ fl = [(Views.success,
                                         "Добро пожаловать, "
                                         +:+ username target +:+ "!")]
                               /\ n = match next_param with
                                      | Some n => n
                                      | None => "mailings:home"
                                      end.
Proof.
  intros Hu Hother Ht Hsu table'. subst table'.
  unfold toggle_user_block. rewrite Hu, Ht, Hsu, String.eqb_refl. cbn [negb].
  destruct (Z.eqb_spec pk (user_id u)) as [Heq|Hneq]; [done|].
  cbn [snd]. unfold Accounts.save.
  rewrite lookup_insert_eq. eexists. split; [reflexivity|].
  intros k fl n. unfold login_view.
  destruct (no_token _); cbn; destruct blocked; cbn.
  - split; [discriminate | intros [? _]; discriminate].
  - split; [intros [= <- <- <-]; done | intros (_ & -> & -> & ->); done].
  - split; [discriminate | intros [? _]; discriminate].
  - split; [intros [= <- <- <-]; done | intros (_ & -> & -> & ->); done].
Qed.

End MoreLogin.

(** ** What the command prints *)

Section MoreCommand.
Import Users Models Env Observe.
Local Open Scope list_scope.

Variable clock : nat -> Z.
Variable send_mail_outcome :
  nat -> string -> string -> string -> list string -> SendOutcome.
Variable DEFAULT_FROM_EMAIL : string.

Lemma batch_lines_lookup (calls : nat) (m : Mailing) (rs : list Client)
    (i : nat) (c : Client) :
  rs !! i = Some c ->
  batch_lines send_mail_outcome DEFAULT_FROM_EMAIL calls m rs !! i
  = Some (match answer send_mail_outcome DEFAULT_FROM_EMAIL (calls + i) m c
          with
          | Sent => (SendMailings.SUCCESS, "✓ Отправлено: " +:+ email c)
          | Throws str_e =>
              (SendMailings.ERROR,
               "✗ Ошибка " +:+ email c +:+ ": " +:+ str_e)
          end).
Proof.
  revert calls i. induction rs as [|c' rs IH]; intros calls i Hi; [done|].
  destruct i as [|i]; simpl in *.
  - injection Hi as ->. by rewrite Nat.add_0_r.
  - rewrite (IH _ _ Hi). by rewrite Nat.add_succ_r.
Qed.

Lemma batch_lines_length (calls : nat) (m : Mailing) (rs : list Client) :
  length (batch_lines send_mail_outcome DEFAULT_FROM_EMAIL calls m rs)
  = length rs.
Proof. revert calls. induction rs; intros; simpl; [done|]. by rewrite IHrs. Qed.

(** X19.  What the command prints is what it records.  After the four
    header lines come one line per recipient in the order of the
    recipients; the line of a recipient is the success line with the
    address exactly when that recipient's ledger row says Success, and
    otherwise the error line with the address and the very text stored as
    the server response. *)
Theorem command_transcript_matches_ledger (k : Z) (r : MailingRow)
    (w : World) (i : nat) (c : Client) :
  mailings w !! k = Some r ->
  can_send (from_db k r) (clock (clock_reads w)) = true ->
  recipients r !! i = Some c ->
  let '(run, w') :=
    SendMailings.handle clock send_mail_outcome DEFAULT_FROM_EMAIL k w in
  exists line a,
    run.1 !! (4 + i) = Some line
    /\ attempts w' !! (length (attempts w) + i) = Some a
    /\ recipient_email a = Some (email c)
    /\ ((attempt_status a = STATUS_SUCCESS
         /\ line = (SendMailings.SUCCESS, "✓ Отправлено: " +:+ email c))
        \/ (exists str_e,
              attempt_status a = STATUS_FAILED
              /\ server_response a = Some str_e
              /\ line = (SendMailings.ERROR,
                         "✗ Ошибка " +:+ email c +:+ ": " +:+ str_e))).
Proof.
  intros Hr Hs Hi.
  assert (recipients r <> []) as Hne by (intros E; by rewrite E in Hi).
  rewrite (handle_effect clock send_mail_outcome DEFAULT_FROM_EMAIL
             k r w Hr Hs Hne).
  cbn [fst snd attempts].
  eexists _, _. split.
  { rewrite lookup_app_r by (cbn [length]; lia). cbn [length].
    replace (4 + i - 4) with i by lia.
    rewrite lookup_app_l
      by (rewrite batch_lines_length; by eapply lookup_lt_Some).
    by apply batch_lines_lookup. }
  split.
  { rewrite lookup_app_r by lia.
    replace (length (attempts w) + i - length (attempts w)) with i by lia.
    by apply batch_attempts_lookup. }
  destruct (answer _ _ _ _ _) as [|str_e]; cbn.
  - split; [done|]. by left.
  - split; [done|]. right. by exists str_e.
Qed.

End MoreCommand.

(** ** Refreshing twice *)

Section MoreRefresh.
Import Models.

(** [update_status] on a freshly loaded instance whose row is present, in
    one equation. *)
Lemma update_status_loaded (now : Z) (k : Z) (r : MailingRow)
    (table : gmap Z MailingRow) :
  table !! k = Some r ->
  update_status now (from_db k r) table
  = Returns (from_db k (set_status (new_status r now) r),
             <[k := set_status (new_status r now) r]> table).
Proof.
  intros Hr. rewrite (update_status_returns now (from_db k r) table r Hr).
  cbn [status row from_db pk].
  destruct (status_eqb (status r) (new_status r now)) eqn:E; [|done].
  apply status_eqb_eq in E. rewrite <- E, set_status_same.
  by rewrite insert_id.
Qed.

(** X21.  The last reading wins.  Refreshing a stored mailing at one
    instant and then at another leaves exactly the instance and the table
    that a single refresh at the second instant leaves: no trace of the
    earlier status remains, even when the clock went backwards. *)
Theorem update_status_last_reading_wins (now1 now2 : Z) (k : Z)
    (r : MailingRow) (table : gmap Z MailingRow) :
  table !! k = Some r ->
  exists m1 t1,
    update_status now1 (from_db k r) table = Returns (m1, t1)
    /\ update_status now2 m1 t1 = update_status now2 (from_db k r) table.
Proof.
  intros Hr. rewrite (update_status_loaded now1 k r table Hr).
  eexists _, _. split; [reflexivity|].
  rewrite (update_status_loaded now2 k _ _ (lookup_insert_eq _ _ _)).
  rewrite (update_status_loaded now2 k r table Hr).
  cbn [new_status start_time end_time set_status].
  by rewrite insert_insert_eq.
Qed.

End MoreRefresh.

(** ** The hypotheses of the further properties can be met *)

Section WorkedFurther.
Import Users Models Env Observe Further Access Accounts Login.
Local Open Scope list_scope.

Lemma new_status_never_moves_back_witness :
  (0 <= 3600)%Z
  /\ status_rank (new_status Scenario.campaign 0)
     <= status_rank (new_status Scenario.campaign 3600).
Proof.
  assert (0 <= 3600)%Z as H by lia.
  split; [exact H|].
  exact (new_status_never_moves_back Scenario.campaign 0 3600 H).
Defined.

Lemma form_hooks_agree_with_model_clean_witness :
  let self := {| c_pk := None; c_start_time := Some 10%Z;
                 c_end_time := Some 5%Z |} in
  (c_start_time self = Some 10%Z /\ c_end_time self = Some 5%Z)
  /\ accepted (Forms.clean_start_time self (Some 10%Z) 20)
     && accepted (Forms.clean (Some 10%Z) (Some 5%Z))
     = accepted (clean self 20).
Proof.
  intros self.
  assert (c_start_time self = Some 10%Z) as H1 by reflexivity.
  assert (c_end_time self = Some 5%Z) as H2 by reflexivity.
  split; [exact (conj H1 H2)|].
  exact (form_hooks_agree_with_model_clean self 10 5 20 H1 H2).
Defined.

Lemma send_mailing_all_or_nothing_witness :
  let request := {| Views.user := Some Scenario.owner_user |} in
  (Views.user request = Some Scenario.owner_user
   /\ mailings Scenario.world !! 1%Z = Some Scenario.campaign
   /\ Views.owner_differs (from_db 1 Scenario.campaign) Scenario.owner_user
      && negb (can_view_all_mailings Scenario.owner_user) = false
   /\ can_send (from_db 1 Scenario.campaign)
        (Scenario.clock (clock_reads Scenario.world)) = true
   /\ recipients Scenario.campaign <> [])
  /\ mail_calls
       (Views.send_mailing Scenario.clock Scenario.transport
          Scenario.from_address request 1 Scenario.world).2
     = mail_calls Scenario.world + length (recipients Scenario.campaign).
Proof.
  intros request.
  assert (Views.user request = Some Scenario.owner_user
          /\ mailings Scenario.world !! 1%Z = Some Scenario.campaign
          /\ Views.owner_differs (from_db 1 Scenario.campaign)
               Scenario.owner_user
             && negb (can_view_all_mailings Scenario.owner_user) = false
          /\ can_send (from_db 1 Scenario.campaign)
               (Scenario.clock (clock_reads Scenario.world)) = true
          /\ recipients Scenario.campaign <> []) as H
    by (repeat split; try (vm_compute; reflexivity); discriminate).
  split; [exact H|].
  destruct (send_mailing_all_or_nothing Scenario.clock Scenario.transport
              Scenario.from_address request 1 Scenario.world)
    as (_ & Hcount & _).
  exact (proj1 (Hcount Scenario.campaign
                  (ex_intro _ Scenario.owner_user
                     (ex_intro _ Scenario.campaign H))
                  (proj1 (proj2 H)))).
Defined.

Lemma handle_all_or_nothing_witness :
  (mailings Scenario.world !! 1%Z = Some Scenario.campaign
   /\ can_send (from_db 1 Scenario.campaign)
        (Scenario.clock (clock_reads Scenario.world)) = true
   /\ recipients Scenario.campaign <> [])
  /\ mail_calls
       (SendMailings.handle Scenario.clock Scenario.transport
          Scenario.from_address 1 Scenario.world).2
     = mail_calls Scenario.world + length (recipients Scenario.campaign).
Proof.
  assert (mailings Scenario.world !! 1%Z = Some Scenario.campaign
          /\ can_send (from_db 1 Scenario.campaign)
               (Scenario.clock (clock_reads Scenario.world)) = true
          /\ recipients Scenario.campaign <> []) as H
    by (repeat split; try (vm_compute; reflexivity); discriminate).
  split; [exact H|].
  destruct (handle_all_or_nothing Scenario.clock Scenario.transport
              Scenario.from_address 1 Scenario.world)
    as (_ & Hcount & _).
  exact (proj1 (Hcount Scenario.campaign
                  (ex_intro _ Scenario.campaign H) (proj1 H))).
Defined.

Lemma send_mailing_twice_sends_twice_witness :
  (mailings Scenario.world !! 1%Z = Some Scenario.campaign
   /\ Views.owner_differs (from_db 1 Scenario.campaign) Scenario.owner_user
      && negb (can_view_all_mailings Scenario.owner_user) = false
   /\ recipients Scenario.campaign <> []
   /\ can_send (from_db 1 Scenario.campaign)
        (Scenario.clock (clock_reads Scenario.world)) = true
   /\ can_send (from_db 1 Scenario.campaign)
        (Scenario.clock
           (clock_reads Scenario.world
            + length (recipients Scenario.campaign) + 2)) = true)
  /\ mail_calls
       (Views.send_mailing Scenario.clock Scenario.transport
          Scenario.from_address
          {| Views.user := Some Scenario.owner_user |} 1
          (Views.send_mailing Scenario.clock Scenario.transport
             Scenario.from_address
             {| Views.user := Some Scenario.owner_user |} 1
             Scenario.world).2).2
     = mail_calls Scenario.world + 2 * length (recipients Scenario.campaign).
Proof.
  assert (mailings Scenario.world !! 1%Z = Some Scenario.campaign) as H1
    by (vm_compute; reflexivity).
  assert (Views.owner_differs (from_db 1 Scenario.campaign)
            Scenario.owner_user
          && negb (can_view_all_mailings Scenario.owner_user) = false)
    as H2 by reflexivity.
  assert (recipients Scenario.campaign <> []) as H3 by discriminate.
  assert (can_send (from_db 1 Scenario.campaign)
            (Scenario.clock (clock_reads Scenario.world)) = true)
    as H4 by reflexivity.
  assert (can_send (from_db 1 Scenario.campaign)
            (Scenario.clock
               (clock_reads Scenario.world
                + length (recipients Scenario.campaign) + 2)) = true)
    as H5 by reflexivity.
  split; [exact (conj H1 (conj H2 (conj H3 (conj H4 H5))))|].
  destruct (send_mailing_twice_sends_twice Scenario.clock Scenario.transport
              Scenario.from_address Scenario.owner_user 1 Scenario.campaign
              Scenario.world H1 H2 H3 H4 H5)
    as (b1 & b2 & _ & _ & _ & _ & Hcalls).
  exact Hcalls.
Defined.

Lemma send_loop_rows_are_independent_witness :
  (recipients Scenario.campaign !! 0 = Some Scenario.client_a
   /\ Scenario.transport (mail_calls Scenario.world + 0)
        (subject (message Scenario.campaign))
        (body (message Scenario.campaign)) Scenario.from_address
        [email Scenario.client_a]
      = Scenario2.accepting (mail_calls Scenario.world + 0)
          (subject (message Scenario.campaign))
          (body (message Scenario.campaign)) Scenario.from_address
          [email Scenario.client_a])
  /\ attempts
       (Views.send_loop Scenario.clock Scenario2.accepting
          Scenario.from_address (from_db 1 Scenario.campaign)
          (recipients Scenario.campaign) 0 0 Scenario.world).2
     !! (length (attempts Scenario.world) + 0)
     = attempts
         (Views.send_loop Scenario.clock Scenario.transport
            Scenario.from_address (from_db 1 Scenario.campaign)
            (recipients Scenario.campaign) 0 0 Scenario.world).2
       !! (length (attempts Scenario.world) + 0).
Proof.
  assert (recipients Scenario.campaign !! 0 = Some Scenario.client_a) as H1
    by reflexivity.
  assert (Scenario.transport (mail_calls Scenario.world + 0)
            (subject (message Scenario.campaign))
            (body (message Scenario.campaign)) Scenario.from_address
            [email Scenario.client_a]
          = Scenario2.accepting (mail_calls Scenario.world + 0)
              (subject (message Scenario.campaign))
              (body (message Scenario.campaign)) Scenario.from_address
              [email Scenario.client_a]) as H2 by (vm_compute; reflexivity).
  split; [exact (conj H1 H2)|].
  exact (proj2 (send_loop_rows_are_independent Scenario.clock
                  Scenario.transport Scenario.from_address
                  Scenario2.accepting (from_db 1 Scenario.campaign)
                  (recipients Scenario.campaign) 0 0 Scenario.world
                  0 Scenario.client_a H1 H2)).
Defined.

Lemma get_queryset_scopes_by_owner_witness :
  (mailings Scenario.world !! 1%Z = Some Scenario.campaign
   /\ owner Scenario.campaign = Some (user_id Scenario.owner_user)
   /\ can_view_all_mailings Scenario.manager = true)
  /\ get_queryset owner Scenario.owner_user (mailings Scenario.world) !! 1%Z
     = Some Scenario.campaign
  /\ get_queryset owner Scenario.manager (mailings Scenario.world)
     = mailings Scenario.world.
Proof.
  assert (mailings Scenario.world !! 1%Z = Some Scenario.campaign) as H1
    by (vm_compute; reflexivity).
  assert (owner Scenario.campaign = Some (user_id Scenario.owner_user))
    as H2 by reflexivity.
  assert (can_view_all_mailings Scenario.manager = true) as H3
    by reflexivity.
  split; [exact (conj H1 (conj H2 H3))|]. split.
  - exact (proj2 (proj1 (get_queryset_scopes_by_owner owner
                           Scenario.owner_user (mailings Scenario.world)
                           1 Scenario.campaign))
             (conj H1 (or_intror H2))).
  - exact (proj2 (proj2 (get_queryset_scopes_by_owner owner
                           Scenario.manager (mailings Scenario.world)
                           1 Scenario.campaign)) H3).
Defined.

Lemma dispatch_hands_on_iff_witness :
  (is_manager Scenario.manager = true
   /\ owned_by (Some 7%Z) Scenario.manager = false
   /\ unsafe_method "POST" = true)
  /\ dispatch (Some Views.mailing_list) Scenario.manager (Some 7%Z) "POST"
     <> handed_on.
Proof.
  assert (is_manager Scenario.manager = true) as H1 by reflexivity.
  assert (owned_by (Some 7%Z) Scenario.manager = false) as H2
    by reflexivity.
  assert (unsafe_method "POST" = true) as H3 by reflexivity.
  split; [exact (conj H1 (conj H2 H3))|].
  exact (proj2 (proj2 (dispatch_hands_on_iff (Some Views.mailing_list)
                         Scenario.manager (Some 7%Z) "POST")) H1 H2 H3).
Defined.

Lemma mailing_list_refreshes_what_it_shows_witness :
  (forall t : gmap Z MailingRow, map_to_list t ≡ₚ map_to_list t)
  /\ exists shown w',
       MailingListView_get_queryset Scenario.clock map_to_list
         Scenario.owner_user Scenario.world = (Returns shown, w')
       /\ attempts w' = attempts Scenario.world
       /\ mail_calls w' = mail_calls Scenario.world.
Proof.
  assert (forall t : gmap Z MailingRow, map_to_list t ≡ₚ map_to_list t)
    as H by (intros t; reflexivity).
  split; [exact H|].
  destruct (mailing_list_refreshes_what_it_shows Scenario.clock map_to_list
              H Scenario.owner_user Scenario.world)
    as (shown & w' & Hrun & Ha & Hc & _).
  exists shown, w'. exact (conj Hrun (conj Ha Hc)).
Defined.

Lemma detail_view_refreshes_before_deciding_witness :
  mailings Scenario.world !! 1%Z = Some Scenario.campaign
  /\ exists w',
       MailingDetailView_dispatch Scenario.clock Scenario.manager 1 "POST"
         Scenario.world
       = (decided (dispatch None Scenario.manager
                     (owner Scenario.campaign) "POST"), w')
       /\ mailings w'
          = <[1%Z := set_status
                       (new_status Scenario.campaign
                          (Scenario.clock (clock_reads Scenario.world)))
                       Scenario.campaign]> (mailings Scenario.world)
       /\ attempts w' = attempts Scenario.world
       /\ mail_calls w' = mail_calls Scenario.world.
Proof.
  assert (mailings Scenario.world !! 1%Z = Some Scenario.campaign) as H1
    by (vm_compute; reflexivity).
  split; [exact H1|].
  exact (proj1 (detail_view_refreshes_before_deciding Scenario.clock
                  Scenario.manager 1 "POST" Scenario.world)
           Scenario.campaign H1).
Defined.

Lemma toggle_user_block_applies_form_witness :
  (can_manage_users Scenario.manager = true
   /\ 12%Z <> user_id Scenario.manager
   /\ Scenario2.accounts !! 12%Z = Some Scenario2.bob
   /\ account_is_superuser Scenario2.bob = false)
  /\ toggle_user_block "fresh" (Some Scenario.manager) "POST"
       (Some (true, Some "spam")) 12 Scenario2.accounts
     = ({| flashes :=
             [(Views.success,
               "Пользователь " +:+ username Scenario2.bob +:+ " успешно "
               +:+ (if true then "заблокирован" else "разблокирован")
               +:+ ".")];
           page := to_user_detail 12 |},
        <[12%Z := {| username := username Scenario2.bob;
                     account_role := account_role Scenario2.bob;
                     account_is_superuser := false;
                     is_blocked := true;
                     blocked_reason := Some "spam";
                     email_verification_token :=
                       if no_token Scenario2.bob then Some "fresh"
                       else email_verification_token Scenario2.bob |}]>
          Scenario2.accounts).
Proof.
  assert (can_manage_users Scenario.manager = true) as H1 by reflexivity.
  assert (12%Z <> user_id Scenario.manager) as H2 by (cbn; lia).
  assert (Scenario2.accounts !! 12%Z = Some Scenario2.bob) as H3
    by (vm_compute; reflexivity).
  assert (account_is_superuser Scenario2.bob = false) as H4 by reflexivity.
  split; [exact (conj H1 (conj H2 (conj H3 H4)))|].
  exact (toggle_user_block_applies_form "fresh" Scenario.manager 12
           Scenario2.bob true (Some "spam") Scenario2.accounts H1 H2 H3 H4).
Defined.

Lemma toggle_user_block_guards_witness :
  Scenario2.accounts !! 9%Z = Some Scenario2.boss
  /\ exists target',
       (toggle_user_block "fresh" (Some Scenario.manager) "POST"
          (Some (true, None)) 9 Scenario2.accounts).2 !! 9%Z = Some target'
       /\ username target' = username Scenario2.boss
       /\ account_role target' = account_role Scenario2.boss
       /\ account_is_superuser target'
          = account_is_superuser Scenario2.boss.
Proof.
  assert (Scenario2.accounts !! 9%Z = Some Scenario2.boss) as H1
    by (vm_compute; reflexivity).
  split; [exact H1|].
  exact (proj2 (proj2 (toggle_user_block_guards "fresh"
                         (Some Scenario.manager) "POST" (Some (true, None))
                         9 Scenario2.accounts)) Scenario2.boss H1).
Defined.

Lemma login_view_keeps_blocked_out_witness :
  let blocked_bob :=
    {| username := "bob"; account_role := ROLE_USER;
       account_is_superuser := false; is_blocked := true;
       blocked_reason := None; email_verification_token := None |} in
  is_blocked blocked_bob = true
  /\ login_view false "POST" true (Some (12%Z, blocked_bob)) None
     = login_page
         [(Views.error,
           "Ваш аккаунт заблокирован. Причина: "
           +:+ reason_or_default blocked_bob)].
Proof.
  intros blocked_bob.
  assert (is_blocked blocked_bob = true) as H by reflexivity.
  split; [exact H|].
  exact (proj2 (login_view_keeps_blocked_out false "POST" true
                  (Some (12%Z, blocked_bob)) None)
           12%Z blocked_bob eq_refl eq_refl eq_refl eq_refl H).
Defined.

Lemma blocked_through_the_view_cannot_log_in_witness :
  (can_manage_users Scenario.manager = true
   /\ 12%Z <> user_id Scenario.manager
   /\ Scenario2.accounts !! 12%Z = Some Scenario2.bob
   /\ account_is_superuser Scenario2.bob = false)
  /\ exists stored,
       (toggle_user_block "fresh" (Some Scenario.manager) "POST"
          (Some (true, Some "spam")) 12 Scenario2.accounts).2 !! 12%Z
       = Some stored
       /\ forall k fl n,
            login_view false "POST" true (Some (12%Z, stored)) None
            <> logged_in k fl n.
Proof.
  assert (can_manage_users Scenario.manager = true) as H1 by reflexivity.
  assert (12%Z <> user_id Scenario.manager) as H2 by (cbn; lia).
  assert (Scenario2.accounts !! 12%Z = Some Scenario2.bob) as H3
    by (vm_compute; reflexivity).
  assert (account_is_superuser Scenario2.bob = false) as H4 by reflexivity.
  split; [exact (conj H1 (conj H2 (conj H3 H4)))|].
  destruct (blocked_through_the_view_cannot_log_in "fresh" Scenario.manager
              12 Scenario2.bob true (Some "spam") Scenario2.accounts None
              H1 H2 H3 H4) as (stored & Hst & Hlogin).
  exists stored. split; [exact Hst|].
  intros k fl n Hin. apply Hlogin in Hin as [Hb _]. discriminate Hb.
Defined.

Lemma command_transcript_matches_ledger_witness :
  (mailings Scenario.world !! 1%Z = Some Scenario.campaign
   /\ can_send (from_db 1 Scenario.campaign)
        (Scenario.clock (clock_reads Scenario.world)) = true
   /\ recipients Scenario.campaign !! 1 = Some Scenario.client_b)
  /\ exists line a,
       (SendMailings.handle Scenario.clock Scenario.transport
          Scenario.from_address 1 Scenario.world).1.1 !! (4 + 1) = Some line
       /\ attempts
            (SendMailings.handle Scenario.clock Scenario.transport
               Scenario.from_address 1 Scenario.world).2
          !! (length (attempts Scenario.world) + 1) = Some a
       /\ recipient_email a = Some (email Scenario.client_b).
Proof.
  assert (mailings Scenario.world !! 1%Z = Some Scenario.campaign) as H1
    by (vm_compute; reflexivity).
  assert (can_send (from_db 1 Scenario.campaign)
            (Scenario.clock (clock_reads Scenario.world)) = true)
    as H2 by reflexivity.
  assert (recipients Scenario.campaign !! 1 = Some Scenario.client_b) as H3
    by reflexivity.
  split; [exact (conj H1 (conj H2 H3))|].
  pose proof (command_transcript_matches_ledger Scenario.clock
                Scenario.transport Scenario.from_address 1 Scenario.campaign
                Scenario.world 1 Scenario.client_b H1 H2 H3) as H.
  destruct (SendMailings.handle _ _ _ _ _) as [run w'].
  destruct H as (line & a & Hl & Ha & He & _).
  exists line, a. exact (conj Hl (conj Ha He)).
Defined.

Lemma update_status_last_reading_wins_witness :
  mailings Scenario.world !! 1%Z = Some Scenario.campaign
  /\ exists m1 t1,
       update_status (-5) (from_db 1 Scenario.campaign)
         (mailings Scenario.world) = Returns (m1, t1)
       /\ update_status 3600 m1 t1
          = update_status 3600 (from_db 1 Scenario.campaign)
              (mailings Scenario.world).
Proof.
  assert (mailings Scenario.world !! 1%Z = Some Scenario.campaign) as H1
    by (vm_compute; reflexivity).
  split; [exact H1|].
  exact (update_status_last_reading_wins (-5) 3600 1 Scenario.campaign
           (mailings Scenario.world) H1).
Defined.

Lemma handle_matches_send_mailing_witness :
  (forall r, mailings Scenario.world !! 1%Z = Some r ->
     Views.owner_differs (from_db 1 r) Scenario.owner_user
     && negb (can_view_all_mailings Scenario.owner_user) = false)
  /\ (SendMailings.handle Scenario.clock Scenario.transport
        Scenario.from_address 1 Scenario.world).2
     = (Views.send_mailing Scenario.clock Scenario.transport
          Scenario.from_address
          {| Views.user := Some Scenario.owner_user |} 1 Scenario.world).2.
Proof.
  assert (forall r, mailings Scenario.world !! 1%Z = Some r ->
            Views.owner_differs (from_db 1 r) Scenario.owner_user
            && negb (can_view_all_mailings Scenario.owner_user) = false)
    as H.
  { intros r Hr. vm_compute in Hr. injection Hr as <-. reflexivity. }
  split; [exact H|].
  exact (handle_matches_send_mailing Scenario.clock Scenario.transport
           Scenario.from_address Scenario.owner_user 1 Scenario.world H).
Defined.

End WorkedFurther.
